(** * CVRF evaluation (src/CVRF/cvrf_eval.c): document model, platform
    matching and filtering, OVAL rule synthesis and results assembly. *)

From stdpp Require Import base list gmap strings.
From Stdlib Require Import Strings.String Strings.Ascii Numbers.DecimalString ZArith.

Open Scope string_scope.
Local Set Warnings "-register-all".


(* ------------------------------------------------------------------ *)
(** ** Enumerations (public/cvrf.h) *)

Inductive cvrf_branch_type_t :=
  | CVRF_BRANCH_VENDOR | CVRF_BRANCH_PRODUCT_FAMILY | CVRF_BRANCH_PRODUCT_NAME
  | CVRF_BRANCH_PRODUCT_VERSION | CVRF_BRANCH_PATCH_LEVEL
  | CVRF_BRANCH_SERVICE_PACK | CVRF_BRANCH_ARCHITECTURE | CVRF_BRANCH_LANGUAGE
  | CVRF_BRANCH_LEGACY | CVRF_BRANCH_SPECIFICATION | CVRF_BRANCH_UNKNOWN.

#[global] Instance cvrf_branch_type_eq_dec : EqDecision cvrf_branch_type_t.
Proof. solve_decision. Defined.

Inductive cvrf_product_status_type_t :=
  | CVRF_PRODUCT_STATUS_FIRST_AFFECTED | CVRF_PRODUCT_STATUS_KNOWN_AFFECTED
  | CVRF_PRODUCT_STATUS_KNOWN_NOT_AFFECTED | CVRF_PRODUCT_STATUS_FIRST_FIXED
  | CVRF_PRODUCT_STATUS_FIXED | CVRF_PRODUCT_STATUS_RECOMMENDED
  | CVRF_PRODUCT_STATUS_LAST_AFFECTED | CVRF_PRODUCT_STATUS_UNKNOWN.

Inductive cvrf_relationship_type_t :=
  | CVRF_RELATIONSHIP_DEFAULT_COMPONENT | CVRF_RELATIONSHIP_OPTIONAL_COMPONENT
  | CVRF_RELATIONSHIP_EXTERNAL_COMPONENT | CVRF_RELATIONSHIP_INSTALLED_ON
  | CVRF_RELATIONSHIP_INSTALLED_WITH | CVRF_RELATIONSHIP_UNKNOWN.

Inductive cvrf_remediation_type_t :=
  | CVRF_REMEDIATION_WORKAROUND | CVRF_REMEDIATION_MITIGATION
  | CVRF_REMEDIATION_VENDOR_FIX | CVRF_REMEDIATION_NONE_AVAILABLE
  | CVRF_REMEDIATION_WILL_NOT_FIX | CVRF_REMEDIATION_UNKNOWN.

Inductive cvrf_threat_type_t :=
  | CVRF_THREAT_IMPACT | CVRF_THREAT_EXPLOIT_STATUS | CVRF_THREAT_TARGET_SET
  | CVRF_THREAT_UNKNOWN.

(* ------------------------------------------------------------------ *)
(** ** String lists on the heap

    An [oscap_stringlist] is a heap object reached through a pointer; the
    filter of a vulnerability reassigns and frees these pointers, so the
    product-id lists of product statuses are cells of an explicit heap. *)

Abbreviation loc := positive.

Record heap := mk_heap {
  cells : gmap loc (list string);
  next_loc : loc
}.

(** [oscap_stringlist_new]: a fresh, empty list. *)
Definition stringlist_new (h : heap) : loc * heap :=
  (next_loc h, mk_heap (<[next_loc h := []]> (cells h)) (Pos.succ (next_loc h))).

(** Contents of a list (a dangling pointer is never read on the paths
    modelled here; it reads as the empty list). *)
Definition stringlist_get (h : heap) (l : loc) : list string := cells h !!! l.

(** [oscap_stringlist_add_string]: append at the tail. *)
Definition stringlist_add (h : heap) (l : loc) (s : string) : heap :=
  mk_heap (<[l := (stringlist_get h l ++ [s])%list]> (cells h)) (next_loc h).

(** [oscap_stringlist_free]. *)
Definition stringlist_free (h : heap) (l : loc) : heap :=
  mk_heap (delete l (cells h)) (next_loc h).

(** [oscap_stringlist_clone]: a fresh list with the same strings. *)
Definition stringlist_clone (h : heap) (l : loc) : loc * heap :=
  (next_loc h,
   mk_heap (<[next_loc h := stringlist_get h l]> (cells h)) (Pos.succ (next_loc h))).

(* ------------------------------------------------------------------ *)
(** ** Product tree *)

(** [struct cvrf_product_name]: both fields are read from the document and
    may be NULL ([None]); a Family branch keeps the empty one made by
    [cvrf_product_name_new]. *)
Record cvrf_product_name := mk_product_name {
  pn_product_id : option string;
  pn_cpe : option string
}.

(** [struct cvrf_branch]; the branch name is the [Name] attribute the
    schema requires (it is passed to [strcmp]). *)
Inductive cvrf_branch := mk_branch {
  br_type : cvrf_branch_type_t;
  br_branch_name : string;
  br_product_name : cvrf_product_name;
  br_subbranches : list cvrf_branch
}.

(** [struct cvrf_relationship]; the two references are required
    attributes (the relates-to reference is passed to [strcmp]). *)
Record cvrf_relationship := mk_relationship {
  rel_product_reference : string;
  rel_relation_type : cvrf_relationship_type_t;
  rel_relates_to_ref : string;
  rel_product_name : cvrf_product_name
}.

Record cvrf_group := mk_group {
  group_group_id : option string;
  group_description : option string;
  group_product_ids : list string
}.

Record cvrf_product_tree := mk_product_tree {
  tree_product_names : list cvrf_product_name;
  tree_branches : list cvrf_branch;
  tree_relationships : list cvrf_relationship;
  tree_product_groups : list cvrf_group
}.

Definition cvrf_product_name_clone (n : cvrf_product_name) : cvrf_product_name :=
  mk_product_name (pn_product_id n) (pn_cpe n).

Definition cvrf_relationship_clone (r : cvrf_relationship) : cvrf_relationship :=
  mk_relationship (rel_product_reference r) (rel_relation_type r)
    (rel_relates_to_ref r) (cvrf_product_name_clone (rel_product_name r)).

(** The search loop [while (has_more && product_id == NULL) product_id =
    f(next)]: the first non-NULL answer, in list order. *)
Fixpoint search_first {A} (f : A -> option string) (l : list A) : option string :=
  match l with
  | [] => None
  | x :: r => match f x with Some p => Some p | None => search_first f r end
  end.

Fixpoint get_cvrf_product_id_from_branch (branch : cvrf_branch) (cpe : string)
    : option string :=
  if decide (br_type branch = CVRF_BRANCH_PRODUCT_FAMILY) then
    search_first (fun b => get_cvrf_product_id_from_branch b cpe)
      (br_subbranches branch)
  else if String.eqb (br_branch_name branch) cpe
  then pn_product_id (br_product_name branch)
  else None.

Definition get_cvrf_product_id_from_cpe (tree : cvrf_product_tree) (cpe : string)
    : option string :=
  search_first (fun b => get_cvrf_product_id_from_branch b cpe) (tree_branches tree).

Definition set_relationships (tree : cvrf_product_tree) rels : cvrf_product_tree :=
  mk_product_tree (tree_product_names tree) (tree_branches tree) rels
    (tree_product_groups tree).

(** [cvrf_product_tree_filter_by_cpe]: returns the C return code and the
    tree afterwards. *)
Definition cvrf_product_tree_filter_by_cpe (tree : cvrf_product_tree) (cpe : string)
    : Z * cvrf_product_tree :=
  match get_cvrf_product_id_from_cpe tree cpe with
  | None => ((-1)%Z, tree)
  | Some branch_id =>
      let filtered_relation :=
        map cvrf_relationship_clone
          (List.filter (fun r => String.eqb branch_id (rel_relates_to_ref r))
             (tree_relationships tree)) in
      match filtered_relation with
      | [] => ((-1)%Z, tree)
      | _ => (0%Z, set_relationships tree filtered_relation)
      end
  end.

(* ------------------------------------------------------------------ *)
(** ** Vulnerability *)

Inductive cvrf_note_type_t :=
  | CVRF_NOTE_GENERAL | CVRF_NOTE_DETAILS | CVRF_NOTE_DESCRIPTION
  | CVRF_NOTE_SUMMARY | CVRF_NOTE_FAQ | CVRF_NOTE_LEGAL_DISCLAIMER
  | CVRF_NOTE_OTHER | CVRF_NOTE_UNKNOWN.

Inductive cvrf_reference_type_t :=
  | CVRF_REFERENCE_EXTERNAL | CVRF_REFERENCE_SELF | CVRF_REFERENCE_UNKNOWN.

Inductive cvrf_involvement_status_type_t :=
  | CVRF_INVOLVEMENT_OPEN | CVRF_INVOLVEMENT_DISPUTED
  | CVRF_INVOLVEMENT_IN_PROGRESS | CVRF_INVOLVEMENT_COMPLETED
  | CVRF_INVOLVEMENT_CONTACT_ATTEMPTED | CVRF_INVOLVEMENT_NOT_CONTACTED
  | CVRF_INVOLVEMENT_UNKNOWN.

Inductive cvrf_doc_publisher_type_t :=
  | CVRF_DOC_PUBLISHER_VENDOR | CVRF_DOC_PUBLISHER_DISCOVERER
  | CVRF_DOC_PUBLISHER_COORDINATOR | CVRF_DOC_PUBLISHER_USER
  | CVRF_DOC_PUBLISHER_OTHER | CVRF_DOC_PUBLISHER_UNKNOWN.

(** Stringlists other than those of product statuses are never shared by
    the code modelled here and are kept as values. *)
Record cvrf_remediation := mk_remediation {
  remed_type : cvrf_remediation_type_t;
  remed_date : option string;
  remed_description : option string;
  remed_url : option string;
  remed_entitlement : option string;
  remed_product_ids : list string;
  remed_group_ids : list string
}.

(** [struct cvss_impact] holds up to three metrics; each is kept as the
    text of its score (the floating-point value is not modelled). *)
Record cvss_impact := mk_cvss_impact {
  impact_base : option string;
  impact_environmental : option string;
  impact_temporal : option string
}.

Record cvrf_score_set := mk_score_set {
  score_vector : option string;
  score_impact : cvss_impact;
  score_product_ids : list string
}.

Record cvrf_threat := mk_threat {
  threat_type : cvrf_threat_type_t;
  threat_date : option string;
  threat_description : option string;
  threat_product_ids : list string;
  threat_group_ids : list string
}.

(** [struct cvrf_product_status]: its [product_ids] is a heap pointer. *)
Record cvrf_product_status := mk_product_status {
  ps_type : cvrf_product_status_type_t;
  ps_product_ids : loc
}.

Record cvrf_involvement := mk_involvement {
  inv_status : cvrf_involvement_status_type_t;
  inv_party : cvrf_doc_publisher_type_t;
  inv_description : option string
}.

Record cvrf_vulnerability_cwe := mk_vulnerability_cwe {
  cwe_cwe : option string;
  cwe_id : option string
}.

Record cvrf_note := mk_note {
  note_type : cvrf_note_type_t;
  note_ordinal : Z;
  note_audience : option string;
  note_title : option string;
  note_contents : option string
}.

Record cvrf_reference := mk_reference {
  ref_type : cvrf_reference_type_t;
  ref_url : option string;
  ref_description : option string
}.

Record cvrf_acknowledgment := mk_acknowledgment {
  ack_names : list string;
  ack_organizations : list string;
  ack_description : option string;
  ack_urls : list string
}.

Record cvrf_vulnerability := mk_vulnerability {
  vuln_ordinal : Z;
  vuln_title : option string;
  vuln_system_id : option string;
  vuln_system_name : option string;
  vuln_discovery_date : option string;
  vuln_release_date : option string;
  vuln_cve_id : option string;
  vuln_cwes : list cvrf_vulnerability_cwe;
  vuln_notes : list cvrf_note;
  vuln_involvements : list cvrf_involvement;
  vuln_score_sets : list cvrf_score_set;
  vuln_product_statuses : list cvrf_product_status;
  vuln_threats : list cvrf_threat;
  vuln_remediations : list cvrf_remediation;
  vuln_references : list cvrf_reference;
  vuln_acknowledgments : list cvrf_acknowledgment
}.

Definition set_product_statuses (v : cvrf_vulnerability) stats : cvrf_vulnerability :=
  mk_vulnerability (vuln_ordinal v) (vuln_title v) (vuln_system_id v)
    (vuln_system_name v) (vuln_discovery_date v) (vuln_release_date v)
    (vuln_cve_id v) (vuln_cwes v) (vuln_notes v) (vuln_involvements v)
    (vuln_score_sets v) stats (vuln_threats v) (vuln_remediations v)
    (vuln_references v) (vuln_acknowledgments v).

(** [oscap_str_startswith(product_id, prod)]. *)
Definition oscap_str_startswith (s prefix : string) : bool := String.prefix prefix s.

(** The inner loop: every id of [ids] with prefix [prod] is appended to
    the list at [filtered_ids]. *)
Definition add_matching_ids (h : heap) (filtered_ids : loc) (prod : string)
    (ids : list string) : heap :=
  fold_left (fun h product_id =>
      if oscap_str_startswith product_id prod
      then stringlist_add h filtered_ids product_id else h) ids h.

(** The outer loop over the product statuses; [filtered_ids] is the one
    list allocated before the loop. *)
Fixpoint filter_statuses (filtered_ids : loc) (prod : string)
    (stats : list cvrf_product_status) (h : heap)
    : Z * list cvrf_product_status * heap :=
  match stats with
  | [] => (0%Z, [], h)
  | stat :: rest =>
      let h := add_matching_ids h filtered_ids prod
                 (stringlist_get h (ps_product_ids stat)) in
      if Nat.eqb (List.length (stringlist_get h filtered_ids)) 0 then
        ((-1)%Z, stat :: rest, stringlist_free h filtered_ids)
      else
        let h := stringlist_free h (ps_product_ids stat) in
        let '(ret, rest', h) := filter_statuses filtered_ids prod rest h in
        (ret, mk_product_status (ps_type stat) filtered_ids :: rest', h)
  end.

Definition cvrf_vulnerability_filter_by_product (vuln : cvrf_vulnerability)
    (prod : string) (h : heap) : Z * cvrf_vulnerability * heap :=
  let '(filtered_ids, h) := stringlist_new h in
  let '(ret, stats, h) :=
    filter_statuses filtered_ids prod (vuln_product_statuses vuln) h in
  (ret, set_product_statuses vuln stats, h).

(* ------------------------------------------------------------------ *)
(** ** Document and model *)

Inductive cvrf_doc_status_type_t :=
  | CVRF_DOC_STATUS_DRAFT | CVRF_DOC_STATUS_INTERIM | CVRF_DOC_STATUS_FINAL
  | CVRF_DOC_STATUS_UNKNOWN.

Record cvrf_revision := mk_revision {
  rev_number : option string;
  rev_date : option string;
  rev_description : option string
}.

Record cvrf_doc_tracking := mk_doc_tracking {
  tracking_tracking_id : option string;
  tracking_aliases : list string;
  tracking_status : cvrf_doc_status_type_t;
  tracking_version : option string;
  tracking_revision_history : list cvrf_revision;
  tracking_init_release_date : option string;
  tracking_cur_release_date : option string;
  tracking_generator_engine : option string;
  tracking_generator_date : option string
}.

Record cvrf_doc_publisher := mk_doc_publisher {
  publisher_type : cvrf_doc_publisher_type_t;
  publisher_vendor_id : option string;
  publisher_contact_details : option string;
  publisher_issuing_authority : option string
}.

Record cvrf_document := mk_document {
  doc_distribution : option string;
  doc_aggregate_severity : option string;
  doc_namespace : option string;
  doc_tracking : cvrf_doc_tracking;
  doc_publisher : cvrf_doc_publisher;
  doc_notes : list cvrf_note;
  doc_references : list cvrf_reference;
  doc_acknowledgments : list cvrf_acknowledgment
}.

Record cvrf_model := mk_model {
  model_doc_title : option string;
  model_doc_type : option string;
  model_document : cvrf_document;
  model_tree : cvrf_product_tree;
  model_vulnerabilities : list cvrf_vulnerability
}.

Definition set_tree (m : cvrf_model) (tree : cvrf_product_tree) : cvrf_model :=
  mk_model (model_doc_title m) (model_doc_type m) (model_document m) tree
    (model_vulnerabilities m).

Definition set_vulnerabilities (m : cvrf_model) vulns : cvrf_model :=
  mk_model (model_doc_title m) (model_doc_type m) (model_document m)
    (model_tree m) vulns.

(** The loop of [cvrf_model_filter_by_cpe] over the vulnerabilities: the
    return code of each vulnerability's filter is discarded. *)
Fixpoint filter_vulnerabilities (product : string) (vulns : list cvrf_vulnerability)
    (h : heap) : list cvrf_vulnerability * heap :=
  match vulns with
  | [] => ([], h)
  | v :: rest =>
      let '(_, v', h) := cvrf_vulnerability_filter_by_product v product h in
      let '(rest', h) := filter_vulnerabilities product rest h in
      (v' :: rest', h)
  end.

Definition cvrf_model_filter_by_cpe (model : cvrf_model) (h : heap) (cpe : string)
    : Z * cvrf_model * heap :=
  let product := get_cvrf_product_id_from_cpe (model_tree model) cpe in
  let '(ret, tree) := cvrf_product_tree_filter_by_cpe (model_tree model) cpe in
  let model := set_tree model tree in
  if Z.eqb ret (-1) then ((-1)%Z, model, h)
  else match product with
       | Some product =>
           let '(vulns, h) :=
             filter_vulnerabilities product (model_vulnerabilities model) h in
           (0%Z, set_vulnerabilities model vulns, h)
       | None => (0%Z, model, h)  (* unreachable: the tree filter succeeded *)
       end.

(* ------------------------------------------------------------------ *)
(** ** Cloning a vulnerability *)

Definition cvrf_product_status_clone (stat : cvrf_product_status) (h : heap)
    : cvrf_product_status * heap :=
  let '(ids, h) := stringlist_clone h (ps_product_ids stat) in
  (mk_product_status (ps_type stat) ids, h).

(** [oscap_list_clone] with [cvrf_product_status_clone]. *)
Fixpoint product_statuses_clone (stats : list cvrf_product_status) (h : heap)
    : list cvrf_product_status * heap :=
  match stats with
  | [] => ([], h)
  | s :: rest =>
      let '(s', h) := cvrf_product_status_clone s h in
      let '(rest', h) := product_statuses_clone rest h in
      (s' :: rest', h)
  end.

(** [cvrf_vulnerability_cwe_clone] copies the two pointers (the strings
    are shared, which a value model does not distinguish). *)
Definition cvrf_vulnerability_cwe_clone (c : cvrf_vulnerability_cwe)
    : cvrf_vulnerability_cwe :=
  mk_vulnerability_cwe (cwe_cwe c) (cwe_id c).

(** [cvrf_vulnerability_clone]: [clone] comes from [malloc]; a field the
    function never writes keeps whatever [uninit] holds.  Lists other than
    the product statuses are deep-copied values. *)
Definition cvrf_vulnerability_clone (uninit : cvrf_vulnerability)
    (vuln : cvrf_vulnerability) (h : heap) : cvrf_vulnerability * heap :=
  let ordinal := vuln_ordinal vuln in
  let title := vuln_title vuln in
  let system_id := vuln_system_id vuln in
  let system_id := vuln_system_name vuln in
  let discovery_date := vuln_discovery_date vuln in
  let release_date := vuln_release_date vuln in
  let cwes := map cvrf_vulnerability_cwe_clone (vuln_cwes vuln) in
  let '(stats, h) := product_statuses_clone (vuln_product_statuses vuln) h in
  (mk_vulnerability ordinal title system_id (vuln_system_name uninit)
     discovery_date release_date (vuln_cve_id uninit) cwes (vuln_notes vuln)
     (vuln_involvements vuln) (vuln_score_sets vuln) stats (vuln_threats vuln)
     (vuln_remediations vuln) (vuln_references vuln) (vuln_acknowledgments vuln),
   h).

(** [oscap_list_clone] with [cvrf_vulnerability_clone]: every clone is a
    fresh [malloc] block whose unwritten fields read as [uninit]. *)
Fixpoint vulnerabilities_clone (uninit : cvrf_vulnerability)
    (vulns : list cvrf_vulnerability) (h : heap) : list cvrf_vulnerability * heap :=
  match vulns with
  | [] => ([], h)
  | v :: rest =>
      let '(v', h) := cvrf_vulnerability_clone uninit v h in
      let '(rest', h) := vulnerabilities_clone uninit rest h in
      (v' :: rest', h)
  end.

(** [cvrf_model_clone]; the document and the product tree hold no heap
    lists, their clones are the same values. *)
Definition cvrf_model_clone (uninit : cvrf_vulnerability) (model : cvrf_model)
    (h : heap) : cvrf_model * heap :=
  let '(vulns, h) := vulnerabilities_clone uninit (model_vulnerabilities model) h in
  (mk_model (model_doc_title model) (model_doc_type model) (model_document model)
     (model_tree model) vulns, h).

(* ------------------------------------------------------------------ *)
(** ** Generic node trees (libxml2 [xmlNode]) *)

Inductive xml_node := XElem {
  xml_name : string;
  xml_attrs : list (string * string);
  xml_content : option string;
  xml_children : list xml_node
}.

(** [xmlNewNode]. *)
Definition xml_new_node (name : string) : xml_node := XElem name [] None [].

(** [xmlAddChild]: append as last child. *)
Definition xml_add_child (parent child : xml_node) : xml_node :=
  XElem (xml_name parent) (xml_attrs parent) (xml_content parent)
    (xml_children parent ++ [child])%list.

Definition xml_add_child_opt (parent : xml_node) (child : option xml_node) : xml_node :=
  match child with Some c => xml_add_child parent c | None => parent end.

(** [xmlNewProp]. *)
Definition xml_new_prop (e : xml_node) (name value : string) : xml_node :=
  XElem (xml_name e) (xml_attrs e ++ [(name, value)])%list (xml_content e)
    (xml_children e).

(** [xmlNewTextChild(parent, NULL, name, content)]. *)
Definition xml_new_text_child (parent : xml_node) (name : string)
    (content : option string) : xml_node :=
  xml_add_child parent (XElem name [] content []).

Fixpoint xml_get_attribute (attrs : list (string * string)) (name : string)
    : option string :=
  match attrs with
  | [] => None
  | (n, v) :: rest => if String.eqb n name then Some v else xml_get_attribute rest name
  end.

(** [cvrf_element_to_dom]: the text is kept as the element's content.
    For an empty text [xmlNodeAddContent] adds no text node, and a reader
    never reads an empty string back; the round trips proved below are
    stated for non-empty texts only. *)
Definition cvrf_element_to_dom (elm_name : string) (elm_value : option string)
    : option xml_node :=
  match elm_value with
  | None => None
  | Some v => Some (XElem elm_name [] (Some v) [])
  end.

Definition cvrf_element_add_child (elm_name : string) (elm_value : option string)
    (parent : xml_node) : xml_node :=
  xml_add_child_opt parent (cvrf_element_to_dom elm_name elm_value).

Definition cvrf_element_add_attribute (attr_name : string) (attr_value : option string)
    (element : xml_node) : xml_node :=
  match attr_value with
  | None => element
  | Some v => xml_new_prop element attr_name v
  end.

Definition cvrf_element_add_stringlist (l : list string) (tag_name : string)
    (parent : xml_node) : xml_node :=
  fold_left (fun p s => xml_new_text_child p tag_name (Some s)) l parent.

Definition CVRF_NS := "http://www.icasi.org/CVRF/schema/cvrf/1.1".

(* ------------------------------------------------------------------ *)
(** ** Results assembler *)

Fixpoint product_ids_contain (product_ids : list string) (product : string) : bool :=
  match product_ids with
  | [] => false
  | product_id :: rest =>
      if String.eqb product_id product then true
      else product_ids_contain rest product
  end.

Fixpoint statuses_contain (h : heap) (stats : list cvrf_product_status)
    (product : string) : bool :=
  match stats with
  | [] => false
  | stat :: rest =>
      if product_ids_contain (stringlist_get h (ps_product_ids stat)) product
      then true else statuses_contain h rest product
  end.

Definition cvrf_product_vulnerability_fixed (h : heap) (vuln : cvrf_vulnerability)
    (product : string) : bool :=
  statuses_contain h (vuln_product_statuses vuln) product.

Record cvrf_session := mk_session {
  session_model : cvrf_model;
  session_heap : heap;
  session_product_ids : list string
}.

Section Results.
(** The serializers of the document block and of one vulnerability. *)
Variable cvrf_document_to_dom : cvrf_document -> list xml_node.
Variable cvrf_vulnerability_to_dom : heap -> cvrf_vulnerability -> xml_node.

Definition result_to_dom (h : heap) (vuln : cvrf_vulnerability)
    (results_node : xml_node) (product_id : string) : xml_node :=
  let result_node := xml_new_node "Result" in
  let result_node := cvrf_element_add_child "ProductID" (Some product_id) result_node in
  let result_node :=
    if cvrf_product_vulnerability_fixed h vuln product_id
    then cvrf_element_add_child "VulnerabilityStatus" (Some "FIXED") result_node
    else cvrf_element_add_child "VulnerabilityStatus" (Some "VULNERABLE") result_node in
  xml_add_child results_node result_node.

Definition vulnerability_results_to_dom (session : cvrf_session)
    (vuln : cvrf_vulnerability) : xml_node :=
  let h := session_heap session in
  let vuln_node := cvrf_vulnerability_to_dom h vuln in
  let results_node :=
    fold_left (result_to_dom h vuln) (session_product_ids session)
      (xml_new_node "Results") in
  xml_add_child vuln_node results_node.

Definition cvrf_model_results_to_dom (session : cvrf_session) : xml_node :=
  let model := session_model session in
  let root_node := xml_new_node "cvrfdoc" in
  let root_node := xml_new_prop root_node "xmlns" CVRF_NS in
  let root_node := xml_new_prop root_node "xmlns:cvrf" CVRF_NS in
  let title_node :=
    xml_new_prop (XElem "DocumentTitle" [] (model_doc_title model) []) "xml:lang" "en" in
  let root_node := xml_add_child root_node title_node in
  let root_node := cvrf_element_add_child "DocumentType" (model_doc_type model) root_node in
  let root_node :=
    fold_left xml_add_child (cvrf_document_to_dom (model_document model)) root_node in
  fold_left (fun root vuln => xml_add_child root (vulnerability_results_to_dom session vuln))
    (model_vulnerabilities model) root_node.
End Results.

(* ------------------------------------------------------------------ *)
(** ** Package attributes from a product id *)

(** [oscap_str_endswith(str, suffix)]. *)
Definition oscap_str_endswith (str suffix : string) : bool :=
  let n := String.length str in
  let k := String.length suffix in
  (k <=? n)%nat && String.eqb (substring (n - k) k str) suffix.

(** [get_rpm_name_from_cvrf_product_id]: only the top-level branches of
    type PRODUCT_VERSION are looked at.  [None] is the NULL result, and also
    the case where a looked-at branch has no product id (a NULL passed to
    [oscap_str_endswith]); the only caller hands the result to [strdup]. *)
Fixpoint rpm_name_from_branches (branches : list cvrf_branch) (product_id : string)
    : option string :=
  match branches with
  | [] => None
  | branch :: rest =>
      if decide (br_type branch = CVRF_BRANCH_PRODUCT_VERSION) then
        let full_name := br_product_name branch in
        match pn_product_id full_name with
        | None => None
        | Some id =>
            if oscap_str_endswith product_id id then pn_cpe full_name
            else rpm_name_from_branches rest product_id
        end
      else rpm_name_from_branches rest product_id
  end.

Definition get_rpm_name_from_cvrf_product_id (tree : cvrf_product_tree)
    (product_id : string) : option string :=
  rpm_name_from_branches (tree_branches tree) product_id.

(** [strchr(s, c) + 1] as a string, [None] when [strchr] returns NULL. *)
Fixpoint strchr_next (s : string) (c : ascii) : option string :=
  match s with
  | EmptyString => None
  | String a rest => if Ascii.eqb a c then Some rest else strchr_next rest c
  end.

(** The index loop: position of the first [c], or the length. *)
Fixpoint index_of (s : string) (c : ascii) : nat :=
  match s with
  | EmptyString => 0
  | String a rest => if Ascii.eqb a c then 0 else S (index_of rest c)
  end.

Record cvrf_rpm_attributes := mk_rpm_attributes {
  full_package_name : string;
  rpm_name : string;
  evr_format : string
}.

(** [parse_rpm_attributes_from_cvrf_product_id].  [None] is undefined
    behaviour: [strdup(NULL)], [strchr] finding no colon, or [index < 2]
    so that the unsigned [index-1] or [index-2] wraps around.  Writing the
    NUL at [index-2] cuts [package] (the name); [evr] starts at [index-1]. *)
Definition parse_rpm_attributes_from_cvrf_product_id (tree : cvrf_product_tree)
    (product_id : string) : option cvrf_rpm_attributes :=
  match get_rpm_name_from_cvrf_product_id tree product_id with
  | None => None
  | Some full =>
      match strchr_next product_id ":"%char with
      | None => None
      | Some package =>
          let length := String.length package in
          let index := index_of package ":"%char in
          if (index <? 2)%nat then None
          else Some (mk_rpm_attributes full
                       (substring 0 (index - 2) package)
                       (substring (index - 1) (length - (index - 1)) package))
      end
  end.

(* ------------------------------------------------------------------ *)
(** ** OVAL rule synthesis *)

Definition string_of_nat (n : nat) : string := NilEmpty.string_of_uint (Nat.to_uint n).

(** [get_oval_id_string]: [oscap_sprintf("oval:org.open-scap.unix:%s:%d")]. *)
Definition get_oval_id_string (type : string) (object_number : nat) : string :=
  "oval:org.open-scap.unix:" ++ type ++ ":" ++ string_of_nat object_number.

Record oval_object := mk_oval_object {
  object_id : string;
  object_entity_name : string            (* the rpm name *)
}.

Record oval_state := mk_oval_state {
  state_id : string;
  state_comment : string;                (* full package name *)
  state_name_pattern : string;           (* "name", pattern match *)
  state_evr_less_than : string           (* "evr", less than *)
}.

Record oval_test := mk_oval_test {
  test_id : string;
  test_state : string;
  test_object : string
}.

Record oval_definition := mk_oval_definition {
  definition_id : string;
  definition_title : string;
  definition_criterion_test : string;
  definition_criterion_comment : string
}.

(** The records the synthesis registers in the definition model, each
    kind in registration order. *)
Record oval_definition_model := mk_oval_definition_model {
  dm_definitions : list oval_definition;
  dm_tests : list oval_test;
  dm_states : list oval_state;
  dm_objects : list oval_object
}.

Definition get_new_oval_object_for_cvrf (attrs : cvrf_rpm_attributes) (objectNo : nat)
    : oval_object :=
  mk_oval_object (get_oval_id_string "obj" objectNo) (rpm_name attrs).

Definition get_new_oval_state_for_cvrf (attrs : cvrf_rpm_attributes) (stateNo : nat)
    : oval_state :=
  mk_oval_state (get_oval_id_string "ste" stateNo) (full_package_name attrs)
    (rpm_name attrs) (evr_format attrs).

(** [create_oval_definition_for_cvrf_rpm_attributes] with the test, state
    and object it builds through [get_new_rpminfo_test_for_cvrf]. *)
Definition create_oval_definition_for_cvrf_rpm_attributes
    (dm : oval_definition_model) (attrs : cvrf_rpm_attributes) (index : nat)
    : oval_definition_model :=
  let def := mk_oval_definition (get_oval_id_string "def" index)
               "CVRF RPM Vulnerability Test" (get_oval_id_string "tst" index)
               ("Check for vulnerability of package " ++ rpm_name attrs) in
  let state := get_new_oval_state_for_cvrf attrs index in
  let object := get_new_oval_object_for_cvrf attrs index in
  let test := mk_oval_test (get_oval_id_string "tst" index) (state_id state)
                (object_id object) in
  mk_oval_definition_model
    (dm_definitions dm ++ [def])%list (dm_tests dm ++ [test])%list
    (dm_states dm ++ [state])%list (dm_objects dm ++ [object])%list.

Fixpoint construct_definitions (tree : cvrf_product_tree) (product_ids : list string)
    (index : nat) (dm : oval_definition_model) : option oval_definition_model :=
  match product_ids with
  | [] => Some dm
  | product_id :: rest =>
      match parse_rpm_attributes_from_cvrf_product_id tree product_id with
      | None => None
      | Some attrs =>
          construct_definitions tree rest (S index)
            (create_oval_definition_for_cvrf_rpm_attributes dm attrs index)
      end
  end.

(** [cvrf_session_construct_definition_model] on the session's definition
    model [dm]; [None] when a product id hits undefined behaviour. *)
Definition cvrf_session_construct_definition_model (session : cvrf_session)
    (dm : oval_definition_model) : option oval_definition_model :=
  construct_definitions (model_tree (session_model session))
    (session_product_ids session) 1 dm.

(* ------------------------------------------------------------------ *)
(** ** Remediations and threats: serializer and parser *)

Section RemediationDom.
(** The enumeration text tables ([cvrf_*_type_get_text]) and the
    attribute reader of the remediation type. *)
Variable cvrf_remediation_type_get_text : cvrf_remediation_type_t -> option string.
Variable cvrf_threat_type_get_text : cvrf_threat_type_t -> option string.
Variable cvrf_remediation_type_parse : option string -> cvrf_remediation_type_t.

Definition cvrf_remediation_to_dom (remed : cvrf_remediation) : xml_node :=
  let remed_node := xml_new_node "Remediation" in
  let remed_node := cvrf_element_add_attribute "Type"
                      (cvrf_remediation_type_get_text (remed_type remed)) remed_node in
  let desc_node :=
    option_map (fun d => xml_new_prop d "xml:lang" "en")
      (cvrf_element_to_dom "Description" (remed_description remed)) in
  let remed_node := xml_add_child_opt remed_node desc_node in
  let remed_node := cvrf_element_add_child "URL" (remed_url remed) remed_node in
  let remed_node := cvrf_element_add_child "Entitlement" (remed_entitlement remed) remed_node in
  let remed_node := cvrf_element_add_stringlist (remed_product_ids remed) "ProductID" remed_node in
  cvrf_element_add_stringlist (remed_group_ids remed) "GroupID" remed_node.

Definition cvrf_threat_to_dom (threat : cvrf_threat) : xml_node :=
  let threat_node := xml_new_node "Threat" in
  let threat_node := cvrf_element_add_attribute "Type"
                       (cvrf_threat_type_get_text (threat_type threat)) threat_node in
  let threat_node := cvrf_element_add_attribute "Date" (threat_date threat) threat_node in
  let threat_node := cvrf_element_add_child "Description" (threat_description threat) threat_node in
  let threat_node := cvrf_element_add_stringlist (threat_product_ids threat) "ProductID" threat_node in
  cvrf_element_add_stringlist (threat_group_ids threat) "GroupID" threat_node.

Definition cvrf_remediation_new : cvrf_remediation :=
  mk_remediation CVRF_REMEDIATION_UNKNOWN None None None None [] [].

(** One step of the loop of [cvrf_remediation_parse] over the child
    elements of the Remediation element. *)
Definition remediation_parse_child (remed : cvrf_remediation) (child : xml_node)
    : cvrf_remediation :=
  let name := xml_name child in
  let text := xml_content child in
  if String.eqb name "Description" then
    mk_remediation (remed_type remed) (remed_date remed) text (remed_url remed)
      (remed_entitlement remed) (remed_product_ids remed) (remed_group_ids remed)
  else if String.eqb name "URL" then
    mk_remediation (remed_type remed) (remed_date remed) (remed_description remed) text
      (remed_entitlement remed) (remed_product_ids remed) (remed_group_ids remed)
  else if String.eqb name "ProductID" then
    mk_remediation (remed_type remed) (remed_date remed) (remed_description remed)
      (remed_url remed) (remed_entitlement remed)
      (remed_product_ids remed ++ option_list text)%list (remed_group_ids remed)
  else if String.eqb name "GroupID" then
    mk_remediation (remed_type remed) (remed_date remed) (remed_description remed)
      (remed_url remed) (remed_entitlement remed) (remed_product_ids remed)
      (remed_group_ids remed ++ option_list text)%list
  else if String.eqb name "Entitlement" then
    mk_remediation (remed_type remed) (remed_date remed) (remed_description remed)
      (remed_url remed) text (remed_product_ids remed) (remed_group_ids remed)
  else remed.

(** [cvrf_remediation_parse] with the cursor on a Remediation element:
    the type and the date are attributes of that element, read before the
    loop; the other fields come from its child elements in order.  A
    childless <Remediation/> has no end tag and the C loop reads past it
    into the following nodes, which this tree view does not model (the
    attributes are read all the same). *)
Definition cvrf_remediation_parse (node : xml_node) : cvrf_remediation :=
  let remed := cvrf_remediation_new in
  let remed :=
    mk_remediation (cvrf_remediation_type_parse (xml_get_attribute (xml_attrs node) "Type"))
      (xml_get_attribute (xml_attrs node) "Date")
      (remed_description remed) (remed_url remed) (remed_entitlement remed)
      (remed_product_ids remed) (remed_group_ids remed) in
  fold_left remediation_parse_child (xml_children node) remed.
End RemediationDom.

(* ------------------------------------------------------------------ *)
(** ** Cloning the document and the product tree *)

(** The string lists of these records are values (see above); their
    [oscap_stringlist_clone] is the same list. *)
Definition cvrf_group_clone (group : cvrf_group) : cvrf_group :=
  mk_group (group_group_id group) (group_description group) (group_product_ids group).

Fixpoint cvrf_branch_clone (branch : cvrf_branch) : cvrf_branch :=
  mk_branch (br_type branch) (br_branch_name branch)
    (cvrf_product_name_clone (br_product_name branch))
    (map cvrf_branch_clone (br_subbranches branch)).

Definition cvrf_product_tree_clone (tree : cvrf_product_tree) : cvrf_product_tree :=
  mk_product_tree (map cvrf_product_name_clone (tree_product_names tree))
    (map cvrf_branch_clone (tree_branches tree))
    (map cvrf_relationship_clone (tree_relationships tree))
    (map cvrf_group_clone (tree_product_groups tree)).

Definition cvrf_revision_clone (revision : cvrf_revision) : cvrf_revision :=
  mk_revision (rev_number revision) (rev_date revision) (rev_description revision).

Definition cvrf_doc_tracking_clone (tracking : cvrf_doc_tracking) : cvrf_doc_tracking :=
  mk_doc_tracking (tracking_tracking_id tracking) (tracking_aliases tracking)
    (tracking_status tracking) (tracking_version tracking)
    (map cvrf_revision_clone (tracking_revision_history tracking))
    (tracking_init_release_date tracking) (tracking_cur_release_date tracking)
    (tracking_generator_engine tracking) (tracking_generator_date tracking).

Definition cvrf_doc_publisher_clone (publisher : cvrf_doc_publisher) : cvrf_doc_publisher :=
  mk_doc_publisher (publisher_type publisher) (publisher_vendor_id publisher)
    (publisher_contact_details publisher) (publisher_issuing_authority publisher).

Definition cvrf_note_clone (note : cvrf_note) : cvrf_note :=
  mk_note (note_type note) (note_ordinal note) (note_audience note) (note_title note)
    (note_contents note).

Definition cvrf_reference_clone (ref : cvrf_reference) : cvrf_reference :=
  mk_reference (ref_type ref) (ref_url ref) (ref_description ref).

Definition cvrf_acknowledgment_clone (ack : cvrf_acknowledgment) : cvrf_acknowledgment :=
  mk_acknowledgment (ack_names ack) (ack_organizations ack) (ack_description ack)
    (ack_urls ack).

Definition cvrf_document_clone (doc : cvrf_document) : cvrf_document :=
  mk_document (doc_distribution doc) (doc_aggregate_severity doc) (doc_namespace doc)
    (cvrf_doc_tracking_clone (doc_tracking doc))
    (cvrf_doc_publisher_clone (doc_publisher doc))
    (map cvrf_note_clone (doc_notes doc))
    (map cvrf_reference_clone (doc_references doc))
    (map cvrf_acknowledgment_clone (doc_acknowledgments doc)).

(* ------------------------------------------------------------------ *)
(** ** Serialization helpers *)

(** [cvrf_list_to_dom] for one item type: [item_to_dom] is the serializer
    the function dispatches to and [container_tag] the tag given by
    [cvrf_item_type_get_container]; [xmlAddChild] of a NULL child adds
    nothing. *)
Definition cvrf_list_to_dom {A} (item_to_dom : A -> option xml_node)
    (container_tag : string) (items : list A) (parent : option xml_node)
    : option xml_node :=
  match items with
  | [] => None
  | _ =>
      let parent := match parent with
                    | Some p => p
                    | None => xml_new_node container_tag
                    end in
      Some (fold_left (fun p item => xml_add_child_opt p (item_to_dom item)) items parent)
  end.

Definition cvrf_element_add_container {A} (item_to_dom : A -> option xml_node)
    (container_tag : string) (items : list A) (parent : xml_node) : xml_node :=
  xml_add_child_opt parent (cvrf_list_to_dom item_to_dom container_tag items None).

(* ------------------------------------------------------------------ *)
(** ** Serializers and parsers of product names, CWEs and product groups *)

(** [cvrf_vulnerability_cwe_to_dom]: NULL when the CWE text is NULL (the
    attribute is then added to no node). *)
Definition cvrf_vulnerability_cwe_to_dom (vuln_cwe : cvrf_vulnerability_cwe)
    : option xml_node :=
  option_map (cvrf_element_add_attribute "ID" (cwe_id vuln_cwe))
    (cvrf_element_to_dom "CWE" (cwe_cwe vuln_cwe)).

(** [cvrf_product_name_to_dom]: NULL when the CPE text is NULL. *)
Definition cvrf_product_name_to_dom (full_name : cvrf_product_name) : option xml_node :=
  match pn_cpe full_name with
  | None => None
  | Some _ =>
      option_map (cvrf_element_add_attribute "ProductID" (pn_product_id full_name))
        (cvrf_element_to_dom "FullProductName" (pn_cpe full_name))
  end.

(** [cvrf_product_name_parse] with the cursor on a FullProductName element. *)
Definition cvrf_product_name_parse (node : xml_node) : cvrf_product_name :=
  mk_product_name (xml_get_attribute (xml_attrs node) "ProductID") (xml_content node).

(** [cvrf_vulnerability_cwe_parse] with the cursor on a CWE element. *)
Definition cvrf_vulnerability_cwe_parse (node : xml_node) : cvrf_vulnerability_cwe :=
  mk_vulnerability_cwe (xml_content node) (xml_get_attribute (xml_attrs node) "ID").

Definition cvrf_group_to_dom (group : cvrf_group) : xml_node :=
  let group_node := xml_new_node "Group" in
  let group_node := cvrf_element_add_attribute "GroupID" (group_group_id group) group_node in
  let group_node := cvrf_element_add_child "Description" (group_description group) group_node in
  cvrf_element_add_stringlist (group_product_ids group) "ProductID" group_node.

(** One step of the loop of [cvrf_group_parse] over the child elements. *)
Definition group_parse_child (group : cvrf_group) (child : xml_node) : cvrf_group :=
  let name := xml_name child in
  let text := xml_content child in
  if String.eqb name "Description" then
    mk_group (group_group_id group) text (group_product_ids group)
  else if String.eqb name "ProductID" then
    mk_group (group_group_id group) (group_description group)
      (group_product_ids group ++ option_list text)%list
  else group.

(** [cvrf_group_parse] with the cursor on a Group element that has child
    elements: the loop reads them in order until the end tag.  A childless
    <Group/> has no end tag and the C loop reads past it into the following
    nodes, which this tree view does not model. *)
Definition cvrf_group_parse (node : xml_node) : cvrf_group :=
  fold_left group_parse_child (xml_children node)
    (mk_group (xml_get_attribute (xml_attrs node) "GroupID") None []).

Section ThreatParse.
(** The reader of the Type attribute of a Threat element. *)
Variable cvrf_threat_type_parse : option string -> cvrf_threat_type_t.

(** One step of the loop of [cvrf_threat_parse] over the child elements. *)
Definition threat_parse_child (threat : cvrf_threat) (child : xml_node) : cvrf_threat :=
  let name := xml_name child in
  let text := xml_content child in
  if String.eqb name "Description" then
    mk_threat (threat_type threat) (threat_date threat) text (threat_product_ids threat)
      (threat_group_ids threat)
  else if String.eqb name "ProductID" then
    mk_threat (threat_type threat) (threat_date threat) (threat_description threat)
      (threat_product_ids threat ++ option_list text)%list (threat_group_ids threat)
  else if String.eqb name "GroupID" then
    mk_threat (threat_type threat) (threat_date threat) (threat_description threat)
      (threat_product_ids threat) (threat_group_ids threat ++ option_list text)%list
  else threat.

(** [cvrf_threat_parse] with the cursor on a Threat element that has child
    elements: the loop reads them in order until the end tag.  A childless
    <Threat/> has no end tag and the C loop reads past it into the following
    nodes, which this tree view does not model. *)
Definition cvrf_threat_parse (node : xml_node) : cvrf_threat :=
  fold_left threat_parse_child (xml_children node)
    (mk_threat (cvrf_threat_type_parse (xml_get_attribute (xml_attrs node) "Type"))
       (xml_get_attribute (xml_attrs node) "Date") None [] []).
End ThreatParse.

(* ------------------------------------------------------------------ *)
(** ** Collecting the product ids of a platform, over a whole index *)

(** The loop of [find_all_cvrf_product_ids_from_cpe]: the product id of
    every relationship is appended; [oscap_list_add] refuses a NULL item,
    as in the parsers above. *)
Definition add_relationship_product_ids (rels : list cvrf_relationship)
    (product_ids : list string) : list string :=
  fold_left (fun ids r => (ids ++ option_list (pn_product_id (rel_product_name r)))%list)
    rels product_ids.

(** [find_all_cvrf_product_ids_from_cpe] on a session holding [model],
    [os_name] and the list [product_ids]. *)
Definition find_all_cvrf_product_ids_from_cpe (model : cvrf_model) (h : heap)
    (os_name : string) (product_ids : list string)
    : Z * cvrf_model * heap * list string :=
  let '(ret, model, h) := cvrf_model_filter_by_cpe model h os_name in
  if Z.eqb ret (-1) then ((-1)%Z, model, h, product_ids)
  else (0%Z, model, h,
        add_relationship_product_ids (tree_relationships (model_tree model)) product_ids).

Section IndexResults.
(** The serializers of the document block and of one vulnerability, and
    the session's platform name. *)
Variable cvrf_document_to_dom : cvrf_document -> list xml_node.
Variable cvrf_vulnerability_to_dom : heap -> cvrf_vulnerability -> xml_node.
Variable os_name : string.

(** The loop of [cvrf_index_get_results_source] over the models of the
    index: one session, whose product-id list and definition model are
    never reset; the return code of the platform search is ignored. *)
Fixpoint index_models_results (models : list cvrf_model) (h : heap)
    (product_ids : list string) (def_model : oval_definition_model)
    (index_node : xml_node) : option (xml_node * heap * list string * oval_definition_model) :=
  match models with
  | [] => Some (index_node, h, product_ids, def_model)
  | model :: rest =>
      let '(_, model, h, product_ids) :=
        find_all_cvrf_product_ids_from_cpe model h os_name product_ids in
      let session := mk_session model h product_ids in
      match cvrf_session_construct_definition_model session def_model with
      | None => None
      | Some def_model =>
          let model_node :=
            cvrf_model_results_to_dom cvrf_document_to_dom cvrf_vulnerability_to_dom session in
          index_models_results rest h product_ids def_model
            (xml_add_child index_node model_node)
      end
  end.

(** [cvrf_index_get_results_source]: the Index element; [None] is
    undefined behaviour in the synthesis. *)
Definition cvrf_index_get_results_source (models : list cvrf_model) (h : heap)
    : option xml_node :=
  match index_models_results models h [] (mk_oval_definition_model [] [] [] [])
          (xml_new_node "Index") with
  | Some (index_node, _, _, _) => Some index_node
  | None => None
  end.
End IndexResults.

(* ================================================================== *)
(** * Specification-side views *)

(** The leaves of a branch forest in document (depth-first) order, with
    the product id of each. *)
Fixpoint branch_leaves (b : cvrf_branch) : list (string * option string) :=
  if decide (br_type b = CVRF_BRANCH_PRODUCT_FAMILY)
  then flat_map branch_leaves (br_subbranches b)
  else [(br_branch_name b, pn_product_id (br_product_name b))].

Definition forest_leaves (bs : list cvrf_branch) : list (string * option string) :=
  flat_map branch_leaves bs.

(** The product id of the first leaf named [cpe]. *)
Definition first_matching_leaf (leaves : list (string * option string)) (cpe : string)
    : option string :=
  match List.find (fun l => String.eqb (fst l) cpe) leaves with
  | Some l => snd l
  | None => None
  end.

(** The first leaf named [cpe] that carries a product id. *)
Definition leaf_search (leaves : list (string * option string)) (cpe : string)
    : option string :=
  search_first (fun l => if String.eqb (fst l) cpe then snd l else None) leaves.

(** A string in which [strchr(s, ':')] finds nothing. *)
Definition colon_free (s : string) : Prop := strchr_next s ":" = None.

(** The ids of the list of [stat] that start with [prod]. *)
Definition status_matches (h : heap) (prod : string) (stat : cvrf_product_status)
    : list string :=
  List.filter (fun id => oscap_str_startswith id prod) (stringlist_get h (ps_product_ids stat)).

(** The product ids of the relationships that relate to the product id
    found for platform [cpe], in document order (nothing when no leaf is
    found). *)
Definition found_product_ids (tree : cvrf_product_tree) (cpe : string) : list string :=
  match get_cvrf_product_id_from_cpe tree cpe with
  | None => []
  | Some pid =>
      omap (fun r => pn_product_id (rel_product_name r))
        (List.filter (fun r => bool_decide (rel_relates_to_ref r = pid))
           (tree_relationships tree))
  end.

(** The product-id lists of the successive sessions of an index: the
    starting list extended, model after model, by the ids found in it. *)
Fixpoint accumulated_ids (product_ids : list string) (found : list (list string))
    : list (list string) :=
  match found with
  | [] => []
  | ids :: rest =>
      (product_ids ++ ids)%list :: accumulated_ids (product_ids ++ ids)%list rest
  end.

(** The Result entry the specification expects for product [p] of
    vulnerability [v]: FIXED iff [p] is listed in some ProductStatus of
    [v], whatever its category. *)
Definition expected_result (h : heap) (v : cvrf_vulnerability) (p : string) : xml_node :=
  XElem "Result" [] None
    [XElem "ProductID" [] (Some p) [];
     XElem "VulnerabilityStatus" []
       (Some (if bool_decide (Exists (fun st => p ∈ stringlist_get h (ps_product_ids st))
                                (vuln_product_statuses v))
              then "FIXED" else "VULNERABLE")) []].

(* ================================================================== *)
(** * Example documents *)

Definition example_leaf (name product_id : string) : cvrf_branch :=
  mk_branch CVRF_BRANCH_PRODUCT_VERSION name
    (mk_product_name (Some product_id) (Some name)) [].

Definition example_family (name : string) (subs : list cvrf_branch) : cvrf_branch :=
  mk_branch CVRF_BRANCH_PRODUCT_FAMILY name (mk_product_name None None) subs.

Definition example_relationship (reference relates_to : string) : cvrf_relationship :=
  mk_relationship reference CVRF_RELATIONSHIP_DEFAULT_COMPONENT relates_to
    (mk_product_name (Some reference) (Some reference)).

Definition example_tree (branches : list cvrf_branch) (rels : list cvrf_relationship)
    : cvrf_product_tree :=
  mk_product_tree [] branches rels [].

Definition example_document : cvrf_document :=
  mk_document None None None
    (mk_doc_tracking (Some "RHSA-2017:0001") [] CVRF_DOC_STATUS_FINAL (Some "1") []
       None None None None)
    (mk_doc_publisher CVRF_DOC_PUBLISHER_VENDOR None None None) [] [] [].

Definition example_vulnerability (system_id system_name cve_id : option string)
    (stats : list cvrf_product_status) (remeds : list cvrf_remediation)
    : cvrf_vulnerability :=
  mk_vulnerability 1 (Some "openssl security update") system_id system_name None None
    cve_id [] [] [] [] stats [] remeds [] [].

Definition example_model (tree : cvrf_product_tree) (vulns : list cvrf_vulnerability)
    : cvrf_model :=
  mk_model (Some "openssl security update") (Some "Security Advisory")
    example_document tree vulns.

Definition empty_heap : heap := mk_heap ∅ 1.

(** Two vendor platforms, each with one component relationship. *)
Definition two_platforms_tree : cvrf_product_tree :=
  example_tree
    [example_family "vendor"
       [example_leaf "platform-a" "p1"; example_leaf "platform-b" "p2"]]
    [example_relationship "c1" "p1"; example_relationship "c2" "p2"].

(** Platform a, whose only relationship relates to another product. *)
Definition unrelated_tree : cvrf_product_tree :=
  example_tree [example_family "vendor" [example_leaf "platform-a" "p1"]]
    [example_relationship "c2" "p2"].

(** Two leaves with the same name. *)
Definition twin_leaves_tree : cvrf_product_tree :=
  example_tree
    [example_family "vendor"
       [example_leaf "platform-a" "p1"; example_leaf "platform-a" "p2"]] [].

(** A package leaf for the Red Hat style product ids. *)
Definition openssl_tree : cvrf_product_tree :=
  example_tree [example_leaf "openssl-1:1.0.2k-16.el7_4" "openssl-1:1.0.2k-16.el7_4"] [].

Definition openssl_session : cvrf_session :=
  mk_session (example_model openssl_tree []) empty_heap
    ["7Server-7.4.Z:openssl-1:1.0.2k-16.el7_4";
     "7Client-7.4.Z:openssl-1:1.0.2k-16.el7_4";
     "7Workstation-7.4.Z:openssl-1:1.0.2k-16.el7_4"].

Definition empty_definition_model : oval_definition_model :=
  mk_oval_definition_model [] [] [] [].

Definition openssl_definition_model : oval_definition_model :=
  match cvrf_session_construct_definition_model openssl_session empty_definition_model with
  | Some dm => dm
  | None => empty_definition_model
  end.

(** A package leaf named after the product id of a CPE-style identifier. *)
Definition cpe_package_tree : cvrf_product_tree :=
  example_tree [example_leaf "openssl-1.0.2k-16.el7" "openssl-1.0.2k-16.el7"] [].

(** Two product statuses, lists 1 and 2 on the heap. *)
Definition two_lists_heap : heap :=
  mk_heap (<[1%positive := ["p1:a"]]> (<[2%positive := ["x"]]> ∅)) 3.

Definition two_statuses_vulnerability : cvrf_vulnerability :=
  example_vulnerability None None None
    [mk_product_status CVRF_PRODUCT_STATUS_FIXED 1;
     mk_product_status CVRF_PRODUCT_STATUS_KNOWN_AFFECTED 2] [].

Definition dated_remediation : cvrf_remediation :=
  mk_remediation CVRF_REMEDIATION_VENDOR_FIX (Some "2017-08-01") (Some "Update openssl")
    (Some "https://access.redhat.com/errata/RHSA-2017:0001") None ["p1"] [].

Definition dated_threat : cvrf_threat :=
  mk_threat CVRF_THREAT_IMPACT (Some "2017-08-01") (Some "Important") ["p1"] [].

Definition identified_vulnerability : cvrf_vulnerability :=
  example_vulnerability (Some "ID-1") (Some "Sys") (Some "CVE-2017-1") [] [dated_remediation].

(** Text tables of the threat and remediation types, after the CVRF 1.1
    vocabulary; an unknown type has no text. *)
Definition example_threat_type_get_text (type : cvrf_threat_type_t) : option string :=
  match type with
  | CVRF_THREAT_IMPACT => Some "Impact"
  | CVRF_THREAT_EXPLOIT_STATUS => Some "Exploit Status"
  | CVRF_THREAT_TARGET_SET => Some "Target Set"
  | CVRF_THREAT_UNKNOWN => None
  end.

Definition example_threat_type_parse (text : option string) : cvrf_threat_type_t :=
  match text with
  | Some t =>
      if String.eqb t "Impact" then CVRF_THREAT_IMPACT
      else if String.eqb t "Exploit Status" then CVRF_THREAT_EXPLOIT_STATUS
      else if String.eqb t "Target Set" then CVRF_THREAT_TARGET_SET
      else CVRF_THREAT_UNKNOWN
  | None => CVRF_THREAT_UNKNOWN
  end.

Definition example_remediation_type_get_text (type : cvrf_remediation_type_t)
    : option string :=
  match type with
  | CVRF_REMEDIATION_WORKAROUND => Some "Workaround"
  | CVRF_REMEDIATION_MITIGATION => Some "Mitigation"
  | CVRF_REMEDIATION_VENDOR_FIX => Some "Vendor Fix"
  | CVRF_REMEDIATION_NONE_AVAILABLE => Some "None Available"
  | CVRF_REMEDIATION_WILL_NOT_FIX => Some "Will Not Fix"
  | CVRF_REMEDIATION_UNKNOWN => None
  end.

Definition example_remediation_type_parse (text : option string) : cvrf_remediation_type_t :=
  match text with
  | Some t =>
      if String.eqb t "Workaround" then CVRF_REMEDIATION_WORKAROUND
      else if String.eqb t "Mitigation" then CVRF_REMEDIATION_MITIGATION
      else if String.eqb t "Vendor Fix" then CVRF_REMEDIATION_VENDOR_FIX
      else if String.eqb t "None Available" then CVRF_REMEDIATION_NONE_AVAILABLE
      else if String.eqb t "Will Not Fix" then CVRF_REMEDIATION_WILL_NOT_FIX
      else CVRF_REMEDIATION_UNKNOWN
  | None => CVRF_REMEDIATION_UNKNOWN
  end.

(** Product statuses whose lists hold ids of two platforms. *)
Definition platform_lists_heap : heap :=
  mk_heap (<[1%positive := ["p1:openssl"; "p2:openssl"]]>
             (<[2%positive := ["p2:bash"; "p1:bash"]]> ∅)) 3.

Definition platform_statuses : list cvrf_product_status :=
  [mk_product_status CVRF_PRODUCT_STATUS_FIXED 1;
   mk_product_status CVRF_PRODUCT_STATUS_KNOWN_AFFECTED 2].

Definition platform_vulnerability : cvrf_vulnerability :=
  example_vulnerability None None None platform_statuses [].

(** The second platform of [two_platforms_tree] only. *)
Definition platform_b_tree : cvrf_product_tree :=
  example_tree [example_family "vendor" [example_leaf "platform-b" "p2"]]
    [example_relationship "c2" "p2"].

(** A platform leaf and a package leaf at the top level, the package
    being a component of the platform. *)
Definition openssl_platform_tree : cvrf_product_tree :=
  example_tree
    [example_leaf "platform-a" "p1";
     example_leaf "openssl-1:1.0.2k-16.el7_4" "openssl-1:1.0.2k-16.el7_4"]
    [example_relationship "platform-a:openssl-1:1.0.2k-16.el7_4" "p1"].

(* ================================================================== *)
(** * Platform search *)

Lemma cvrf_branch_nested_ind (P : cvrf_branch -> Prop)
  (Hnode : forall ty nm pn subs, Forall P subs -> P (mk_branch ty nm pn subs)) :
  forall b, P b.
Proof.
  fix IH 1. intros [ty nm pn subs]. apply Hnode.
  revert subs. fix IHl 1. intros [|b rest]; constructor.
  - apply IH.
  - apply IHl.
Qed.

Lemma search_first_app {A} (f : A -> option string) (l1 l2 : list A) :
  search_first f (l1 ++ l2) =
  match search_first f l1 with Some p => Some p | None => search_first f l2 end.
Proof.
  induction l1 as [|x l1 IH]; simpl; [done|].
  destruct (f x); [done|]. exact IH.
Qed.

Lemma search_first_flat_map {A B} (f : B -> option string) (g : A -> list B)
    (k : A -> option string) (l : list A) :
  Forall (fun a => k a = search_first f (g a)) l ->
  search_first k l = search_first f (flat_map g l).
Proof.
  induction 1 as [|a l Ha _ IH]; simpl; [done|].
  rewrite search_first_app, <- Ha, IH. done.
Qed.

Lemma get_cvrf_product_id_from_branch_leaves (cpe : string) (b : cvrf_branch) :
  get_cvrf_product_id_from_branch b cpe = leaf_search (branch_leaves b) cpe.
Proof.
  revert b. apply cvrf_branch_nested_ind. intros ty nm pn subs Hsubs.
  unfold leaf_search. simpl.
  destruct (decide (ty = CVRF_BRANCH_PRODUCT_FAMILY)).
  - apply search_first_flat_map. exact Hsubs.
  - simpl. destruct (String.eqb nm cpe); [|done].
    destruct (pn_product_id pn); done.
Qed.

Lemma get_cvrf_product_id_from_cpe_leaves (tree : cvrf_product_tree) (cpe : string) :
  get_cvrf_product_id_from_cpe tree cpe =
  leaf_search (forest_leaves (tree_branches tree)) cpe.
Proof.
  unfold get_cvrf_product_id_from_cpe, forest_leaves, leaf_search.
  apply search_first_flat_map. apply Forall_forall. intros b _.
  apply get_cvrf_product_id_from_branch_leaves.
Qed.

Lemma leaf_search_first_matching (leaves : list (string * option string)) (cpe : string) :
  Forall (fun l => snd l <> None) leaves ->
  leaf_search leaves cpe = first_matching_leaf leaves cpe.
Proof.
  unfold leaf_search, first_matching_leaf.
  induction 1 as [|[nm pid] rest Hpid _ IH]; simpl; [done|].
  destruct (String.eqb nm cpe); [|exact IH].
  simpl in Hpid. destruct pid; done.
Qed.

Lemma leaf_search_no_name (leaves : list (string * option string)) (cpe : string) :
  ~ In cpe (map fst leaves) -> leaf_search leaves cpe = None.
Proof.
  unfold leaf_search. induction leaves as [|[nm pid] rest IH]; simpl; [done|].
  intros Hnot. destruct (String.eqb nm cpe) eqn:E.
  - apply String.eqb_eq in E. subst. exfalso. apply Hnot. left. done.
  - apply IH. intros Hin. apply Hnot. right. exact Hin.
Qed.

Lemma cvrf_relationship_clone_id (r : cvrf_relationship) : cvrf_relationship_clone r = r.
Proof. destruct r as [? ? ? [? ?]]. done. Qed.

Lemma set_tree_same (m : cvrf_model) : set_tree m (model_tree m) = m.
Proof. destruct m. done. Qed.

(** C7: the platform search is a depth-first, document-order search over
    the branch forest comparing each Leaf name with the platform identifier
    by exact string equality; the first matching Leaf's product id is
    returned (every Leaf carrying its product id). *)
Theorem get_cvrf_product_id_from_cpe_first_leaf (tree : cvrf_product_tree) (cpe : string) :
  Forall (fun l => snd l <> None) (forest_leaves (tree_branches tree)) ->
  get_cvrf_product_id_from_cpe tree cpe =
  first_matching_leaf (forest_leaves (tree_branches tree)) cpe.
Proof.
  intros Hids. rewrite get_cvrf_product_id_from_cpe_leaves.
  apply leaf_search_first_matching. exact Hids.
Qed.

(* ================================================================== *)
(** * Filtering by platform *)

Lemma filter_clone_relationships (branch_id : string) (rels : list cvrf_relationship) :
  map cvrf_relationship_clone
    (List.filter (fun r => String.eqb branch_id (rel_relates_to_ref r)) rels) =
  List.filter (fun r => bool_decide (rel_relates_to_ref r = branch_id)) rels.
Proof.
  induction rels as [|r rels IH]; simpl; [done|].
  destruct (String.eqb branch_id (rel_relates_to_ref r)) eqn:E.
  - apply String.eqb_eq in E. rewrite bool_decide_true by done.
    simpl. rewrite cvrf_relationship_clone_id, IH. done.
  - rewrite bool_decide_false; [exact IH|].
    intros Heq. rewrite Heq, String.eqb_refl in E. discriminate.
Qed.

Lemma filter_bool_decide_nil (pid : string) (rels : list cvrf_relationship) :
  Forall (fun r => rel_relates_to_ref r <> pid) rels ->
  List.filter (fun r => bool_decide (rel_relates_to_ref r = pid)) rels = [].
Proof.
  induction 1 as [|r rels Hr _ IH]; simpl; [done|].
  rewrite bool_decide_false by done. exact IH.
Qed.

Lemma filter_bool_decide_cons (pid : string) (rels : list cvrf_relationship) :
  Exists (fun r => rel_relates_to_ref r = pid) rels ->
  exists r rest,
    List.filter (fun r => bool_decide (rel_relates_to_ref r = pid)) rels = r :: rest.
Proof.
  induction 1 as [r rels Hr|r rels _ IH]; simpl.
  - rewrite bool_decide_true by done. eauto.
  - case_bool_decide; eauto.
Qed.

Lemma tree_filter_no_leaf (tree : cvrf_product_tree) (cpe : string) :
  ~ In cpe (map fst (forest_leaves (tree_branches tree))) ->
  cvrf_product_tree_filter_by_cpe tree cpe = ((-1)%Z, tree).
Proof.
  intros Hnot. unfold cvrf_product_tree_filter_by_cpe.
  rewrite get_cvrf_product_id_from_cpe_leaves, leaf_search_no_name by exact Hnot.
  done.
Qed.

(** C3: when no Leaf branch of the product tree is named [cpe], the model
    filter returns -1 and leaves the model (tree, relationships and every
    vulnerability's product statuses, on the heap too) unchanged. *)
Theorem cvrf_model_filter_by_cpe_no_leaf (model : cvrf_model) (h : heap) (cpe : string) :
  ~ In cpe (map fst (forest_leaves (tree_branches (model_tree model)))) ->
  cvrf_model_filter_by_cpe model h cpe = ((-1)%Z, model, h).
Proof.
  intros Hnot. unfold cvrf_model_filter_by_cpe.
  rewrite tree_filter_no_leaf by exact Hnot. simpl.
  rewrite set_tree_same. done.
Qed.

(** C2: when the platform search yields a product id [pid] and some
    Relationship relates to [pid], the tree filter returns 0 and the
    Relationship list becomes exactly the Relationships relating to [pid],
    in their original order. *)
Theorem cvrf_product_tree_filter_by_cpe_keeps_related (tree : cvrf_product_tree)
    (cpe pid : string) :
  get_cvrf_product_id_from_cpe tree cpe = Some pid ->
  Exists (fun r => rel_relates_to_ref r = pid) (tree_relationships tree) ->
  cvrf_product_tree_filter_by_cpe tree cpe =
  (0%Z, set_relationships tree
          (List.filter (fun r => bool_decide (rel_relates_to_ref r = pid))
             (tree_relationships tree))).
Proof.
  intros Hpid Hex. unfold cvrf_product_tree_filter_by_cpe.
  rewrite Hpid, filter_clone_relationships.
  destruct (filter_bool_decide_cons pid _ Hex) as (r & rest & Hf).
  rewrite Hf. done.
Qed.

(** C4 (as amended): when the platform search yields [pid] but no
    Relationship relates to [pid], the model filter returns -1 and the
    model, its Relationship list included, is left unchanged. *)
Theorem cvrf_model_filter_by_cpe_no_relationship (model : cvrf_model) (h : heap)
    (cpe pid : string) :
  get_cvrf_product_id_from_cpe (model_tree model) cpe = Some pid ->
  Forall (fun r => rel_relates_to_ref r <> pid) (tree_relationships (model_tree model)) ->
  cvrf_model_filter_by_cpe model h cpe = ((-1)%Z, model, h).
Proof.
  intros Hpid Hnone. unfold cvrf_model_filter_by_cpe, cvrf_product_tree_filter_by_cpe.
  rewrite Hpid, filter_clone_relationships, filter_bool_decide_nil by exact Hnone.
  simpl. rewrite set_tree_same. done.
Qed.

(* ================================================================== *)
(** * Results assembly *)

Lemma fold_left_add_child {A} (f : A -> xml_node) (l : list A) (root : xml_node) :
  fold_left (fun r x => xml_add_child r (f x)) l root =
  XElem (xml_name root) (xml_attrs root) (xml_content root)
    (xml_children root ++ map f l)%list.
Proof.
  revert root. induction l as [|x l IH]; intros root; simpl.
  - rewrite app_nil_r. destruct root. done.
  - rewrite IH. simpl. rewrite <- app_assoc. done.
Qed.

Lemma product_ids_contain_spec (ids : list string) (p : string) :
  product_ids_contain ids p = bool_decide (p ∈ ids).
Proof.
  induction ids as [|x ids IH]; cbn [product_ids_contain].
  - rewrite bool_decide_false; [done|]. apply not_elem_of_nil.
  - destruct (String.eqb x p) eqn:E.
    + apply String.eqb_eq in E. subst. rewrite bool_decide_true; [done|].
      apply elem_of_cons. left. done.
    + rewrite IH. apply bool_decide_ext. rewrite elem_of_cons.
      split; [intros H; right; exact H|].
      intros [->|H]; [|exact H]. rewrite String.eqb_refl in E. discriminate.
Qed.

Lemma cvrf_product_vulnerability_fixed_spec (h : heap) (v : cvrf_vulnerability)
    (p : string) :
  cvrf_product_vulnerability_fixed h v p =
  bool_decide (Exists (fun st => p ∈ stringlist_get h (ps_product_ids st))
                 (vuln_product_statuses v)).
Proof.
  unfold cvrf_product_vulnerability_fixed.
  induction (vuln_product_statuses v) as [|st stats IH]; cbn [statuses_contain].
  - rewrite bool_decide_false; [done|]. intros H. inversion H.
  - rewrite product_ids_contain_spec.
    destruct (decide (p ∈ stringlist_get h (ps_product_ids st))) as [Hin|Hin].
    + rewrite (bool_decide_true (p ∈ _)) by exact Hin.
      rewrite bool_decide_true; [done|]. constructor. exact Hin.
    + rewrite (bool_decide_false (p ∈ _)) by exact Hin.
      rewrite IH. apply bool_decide_ext. split.
      * intros H. apply Exists_cons. right. exact H.
      * intros H. apply Exists_cons in H as [H|H]; [contradiction|exact H].
Qed.


Lemma result_to_dom_spec (h : heap) (v : cvrf_vulnerability) (root : xml_node)
    (p : string) :
  result_to_dom h v root p = xml_add_child root (expected_result h v p).
Proof.
  unfold result_to_dom, expected_result.
  rewrite cvrf_product_vulnerability_fixed_spec.
  destruct (bool_decide _); done.
Qed.

Lemma fold_result_to_dom (h : heap) (v : cvrf_vulnerability) (pids : list string)
    (root : xml_node) :
  fold_left (result_to_dom h v) pids root =
  XElem (xml_name root) (xml_attrs root) (xml_content root)
    (xml_children root ++ map (expected_result h v) pids)%list.
Proof.
  revert root. induction pids as [|p pids IH]; intros root; simpl.
  - rewrite app_nil_r. destruct root. done.
  - rewrite IH, result_to_dom_spec. simpl. rewrite <- app_assoc. done.
Qed.

(** C1: the results document lists, after its header, one node per
    vulnerability in order; each is the vulnerability's node followed by a
    Results element holding, for every matched product id [p] in order, one
    Result entry with ProductID [p] and VulnerabilityStatus "FIXED" if [p]
    occurs in the product-id list of some ProductStatus of the
    vulnerability (whatever its category) and "VULNERABLE" otherwise. *)
Theorem cvrf_model_results_to_dom_verdicts
    (doc_to_dom : cvrf_document -> list xml_node)
    (vuln_to_dom : heap -> cvrf_vulnerability -> xml_node) (s : cvrf_session) :
  exists header,
    xml_children (cvrf_model_results_to_dom doc_to_dom vuln_to_dom s) =
    (header ++
     map (fun v => xml_add_child (vuln_to_dom (session_heap s) v)
                     (XElem "Results" [] None
                        (map (expected_result (session_heap s) v)
                           (session_product_ids s))))
       (model_vulnerabilities (session_model s)))%list.
Proof.
  unfold cvrf_model_results_to_dom.
  rewrite (fold_left_add_child (vulnerability_results_to_dom vuln_to_dom s)).
  eexists. simpl. f_equal. apply map_ext. intros v.
  unfold vulnerability_results_to_dom. rewrite fold_result_to_dom. done.
Qed.

(* ================================================================== *)
(** * OVAL synthesis *)

Lemma construct_definitions_ids (tree : cvrf_product_tree) (pids : list string) :
  forall (k : nat) (dm dm' : oval_definition_model),
  construct_definitions tree pids k dm = Some dm' ->
  map definition_id (dm_definitions dm') =
    (map definition_id (dm_definitions dm) ++
     map (get_oval_id_string "def") (seq k (List.length pids)))%list /\
  map test_id (dm_tests dm') =
    (map test_id (dm_tests dm) ++ map (get_oval_id_string "tst") (seq k (List.length pids)))%list /\
  map state_id (dm_states dm') =
    (map state_id (dm_states dm) ++ map (get_oval_id_string "ste") (seq k (List.length pids)))%list /\
  map object_id (dm_objects dm') =
    (map object_id (dm_objects dm) ++ map (get_oval_id_string "obj") (seq k (List.length pids)))%list.
Proof.
  induction pids as [|p pids IH]; intros k dm dm' Hc; simpl in Hc.
  - injection Hc as <-. simpl. rewrite !app_nil_r. done.
  - destruct (parse_rpm_attributes_from_cvrf_product_id tree p) as [attrs|]; [|discriminate].
    apply IH in Hc as (Hd & Ht & Hs & Ho). simpl in *.
    rewrite Hd, Ht, Hs, Ho, !map_app, <- !app_assoc. done.
Qed.

(** C8: one synthesis pass over the session's N product ids (each
    decomposing without undefined behaviour) registers, for the k-th id
    (k = 1..N, in order), exactly one definition, test, state and object,
    with ids "oval:org.open-scap.unix:def:k", ":tst:k", ":ste:k" and
    ":obj:k". *)
Theorem cvrf_session_construct_definition_model_ids (s : cvrf_session)
    (dm dm' : oval_definition_model) :
  cvrf_session_construct_definition_model s dm = Some dm' ->
  let ks := seq 1 (List.length (session_product_ids s)) in
  map definition_id (dm_definitions dm') =
    (map definition_id (dm_definitions dm) ++ map (fun k => String.append "oval:org.open-scap.unix:def:" (string_of_nat k)) ks)%list /\
  map test_id (dm_tests dm') =
    (map test_id (dm_tests dm) ++ map (fun k => String.append "oval:org.open-scap.unix:tst:" (string_of_nat k)) ks)%list /\
  map state_id (dm_states dm') =
    (map state_id (dm_states dm) ++ map (fun k => String.append "oval:org.open-scap.unix:ste:" (string_of_nat k)) ks)%list /\
  map object_id (dm_objects dm') =
    (map object_id (dm_objects dm) ++ map (fun k => String.append "oval:org.open-scap.unix:obj:" (string_of_nat k)) ks)%list.
Proof.
  intros Hc. apply construct_definitions_ids in Hc. exact Hc.
Qed.

(* ================================================================== *)
(** * Package attributes *)

Lemma colon_free_cons (a : ascii) (s : string) :
  colon_free (String a s) -> a <> ":"%char /\ colon_free s.
Proof.
  unfold colon_free. simpl. destruct (Ascii.eqb a ":") eqn:E; [discriminate|].
  intros H. split; [apply Ascii.eqb_neq; exact E | exact H].
Qed.

Lemma ascii_eqb_colon_false (a : ascii) : a <> ":"%char -> Ascii.eqb a ":" = false.
Proof. intros H. apply Ascii.eqb_neq. exact H. Qed.

Lemma strchr_next_colon_free (p r : string) :
  colon_free p -> strchr_next (p ++ String ":" r) ":" = Some r.
Proof.
  induction p as [|a p IH]; intros Hp; [done|].
  apply colon_free_cons in Hp as [Ha Hp]. simpl.
  rewrite ascii_eqb_colon_false by exact Ha. apply IH. exact Hp.
Qed.

Lemma index_of_colon_free (n s : string) :
  colon_free n -> index_of (n ++ s) ":" = (String.length n + index_of s ":")%nat.
Proof.
  induction n as [|a n IH]; intros Hn; [done|].
  apply colon_free_cons in Hn as [Ha Hn]. simpl.
  rewrite ascii_eqb_colon_false by exact Ha. rewrite IH by exact Hn. done.
Qed.

Lemma substring_0_length (s : string) : substring 0 (String.length s) s = s.
Proof. induction s as [|a s IH]; simpl; [done|]. rewrite IH. done. Qed.

Lemma substring_prefix (n s : string) : substring 0 (String.length n) (n ++ s) = n.
Proof. induction n as [|a n IH]; simpl; [by destruct s|]. rewrite IH. done. Qed.

Lemma substring_after (n y : string) (d : ascii) :
  substring (String.length n + 1) (String.length (n ++ String d y) - (String.length n + 1))
    (n ++ String d y) = y.
Proof.
  induction n as [|a n IH]; simpl.
  - rewrite Nat.sub_0_r. apply substring_0_length.
  - exact IH.
Qed.

(** C5 (as amended): the decomposition ignores any platform prefix.  It
    cuts the product id at its first colon; in the rest, with i the index
    of the next colon (or the length of the rest when it has none):
    - when i >= 2, the package name is the first i-2 characters and the
      EVR runs from index i-1 to the end.  The rest is then
      "<name><d><e><tail>" with a colon-free name, single non-colon
      characters d and e, and a tail that is empty or starts with a colon;
      the name is <name> and the EVR "<e><tail>" (for example
      "7Server-7.4.Z:openssl-1:1.0.2k-16.el7_4" gives "openssl" and
      "1:1.0.2k-16.el7_4"), provided the product tree resolves the id to
      a full package name;
    - when i < 2, the unsigned index-1 or index-2 wraps around: undefined
      behaviour. *)
Theorem parse_rpm_attributes_first_colon (tree : cvrf_product_tree) :
  (forall (platform name tail full : string) (d e : ascii),
     colon_free platform -> colon_free name -> d <> ":"%char -> e <> ":"%char ->
     (tail = EmptyString \/ exists rest, tail = String ":" rest) ->
     get_rpm_name_from_cvrf_product_id tree
       (platform ++ String ":" (name ++ String d (String e tail))) = Some full ->
     parse_rpm_attributes_from_cvrf_product_id tree
       (platform ++ String ":" (name ++ String d (String e tail))) =
     Some (mk_rpm_attributes full name (String e tail))) /\
  (forall (platform package : string),
     colon_free platform -> (index_of package ":" < 2)%nat ->
     parse_rpm_attributes_from_cvrf_product_id tree (platform ++ String ":" package) = None).
Proof.
  split.
  - intros platform name tail full d e Hp Hn Hd He Htail Hfull.
    assert (Hi : index_of tail ":" = 0%nat)
      by (destruct Htail as [->|[rest ->]]; reflexivity).
    unfold parse_rpm_attributes_from_cvrf_product_id.
    rewrite Hfull, strchr_next_colon_free by exact Hp.
    rewrite index_of_colon_free by exact Hn. simpl.
    rewrite !ascii_eqb_colon_false by assumption. rewrite Hi.
    replace (String.length name + 2 <? 2)%nat with false
      by (symmetry; apply Nat.ltb_ge; lia).
    replace (String.length name + 2 - 2)%nat with (String.length name) by lia.
    replace (String.length name + 2 - 1)%nat with (String.length name + 1)%nat by lia.
    rewrite substring_prefix, substring_after. done.
  - intros platform package Hp Hi.
    unfold parse_rpm_attributes_from_cvrf_product_id.
    destruct (get_rpm_name_from_cvrf_product_id tree _); [|done].
    rewrite strchr_next_colon_free by exact Hp. cbv zeta.
    rewrite (proj2 (Nat.ltb_lt _ _) Hi). done.
Qed.

(* ================================================================== *)
(** * Filtering the vulnerabilities *)

(** C6 (code bug): [cvrf_vulnerability_filter_by_product] allocates one
    [filtered_ids] list before its loop, appends the matching ids of every
    status to it and stores that same pointer into every status it passes.
    On a vulnerability whose statuses hold ["p1:a"] and ["x"], filtering
    by "p1" returns 0 (the second status matches nothing, yet the filter
    does not fail), and both statuses then point to the same list
    ["p1:a"]: the second status received the first status's ids. *)
Theorem cvrf_vulnerability_filter_by_product_shared_list :
  let '(ret, v, h) :=
    cvrf_vulnerability_filter_by_product two_statuses_vulnerability "p1" two_lists_heap in
  ret = 0%Z /\
  map ps_product_ids (vuln_product_statuses v) = [3%positive; 3%positive] /\
  map (fun st => stringlist_get h (ps_product_ids st)) (vuln_product_statuses v) =
    [["p1:a"]; ["p1:a"]].
Proof. vm_compute. repeat split. Qed.

(* ================================================================== *)
(** * Serialization of remediations *)

Lemma xml_attrs_add_child (parent child : xml_node) :
  xml_attrs (xml_add_child parent child) = xml_attrs parent.
Proof. done. Qed.

Lemma xml_attrs_add_child_opt (parent : xml_node) (child : option xml_node) :
  xml_attrs (xml_add_child_opt parent child) = xml_attrs parent.
Proof. by destruct child. Qed.

Lemma xml_attrs_add_stringlist (l : list string) (tag : string) (parent : xml_node) :
  xml_attrs (cvrf_element_add_stringlist l tag parent) = xml_attrs parent.
Proof.
  unfold cvrf_element_add_stringlist. revert parent.
  induction l as [|x l IH]; intros parent; simpl; [done|]. rewrite IH. done.
Qed.

Lemma remediation_parse_child_date (remed : cvrf_remediation) (child : xml_node) :
  remed_date (remediation_parse_child remed child) = remed_date remed.
Proof.
  unfold remediation_parse_child.
  repeat match goal with |- context [if ?b then _ else _] => destruct b end; done.
Qed.

Lemma fold_remediation_parse_child_date (children : list xml_node) (remed : cvrf_remediation) :
  remed_date (fold_left remediation_parse_child children remed) = remed_date remed.
Proof.
  revert remed. induction children as [|c cs IH]; intros remed; simpl; [done|].
  rewrite IH. apply remediation_parse_child_date.
Qed.

Lemma cvrf_remediation_to_dom_attrs
    (get_text : cvrf_remediation_type_t -> option string) (remed : cvrf_remediation) :
  xml_attrs (cvrf_remediation_to_dom get_text remed) =
  match get_text (remed_type remed) with Some t => [("Type", t)] | None => [] end.
Proof.
  unfold cvrf_remediation_to_dom, cvrf_element_add_child.
  rewrite !xml_attrs_add_stringlist, !xml_attrs_add_child_opt.
  unfold cvrf_element_add_attribute. destruct (get_text (remed_type remed)); done.
Qed.

(** C9 (code bug): [cvrf_remediation_to_dom] writes no Date attribute,
    while [cvrf_remediation_parse] reads the date from that attribute.
    Whatever the remediation and the type text tables, parsing its
    serialization gives a remediation without a date; the Threat
    serializer, by contrast, writes its Date attribute. *)
Theorem cvrf_remediation_round_trip_drops_date
    (remed_get_text : cvrf_remediation_type_t -> option string)
    (remed_type_parse : option string -> cvrf_remediation_type_t)
    (threat_get_text : cvrf_threat_type_t -> option string)
    (remed : cvrf_remediation) (threat : cvrf_threat) :
  remed_date (cvrf_remediation_parse remed_type_parse
                (cvrf_remediation_to_dom remed_get_text remed)) = None /\
  xml_get_attribute (xml_attrs (cvrf_threat_to_dom threat_get_text threat)) "Date" =
    threat_date threat.
Proof.
  split.
  - unfold cvrf_remediation_parse. rewrite fold_remediation_parse_child_date. simpl.
    rewrite cvrf_remediation_to_dom_attrs.
    destruct (remed_get_text (remed_type remed)); done.
  - unfold cvrf_threat_to_dom, cvrf_element_add_child.
    rewrite !xml_attrs_add_stringlist, !xml_attrs_add_child_opt.
    unfold cvrf_element_add_attribute.
    destruct (threat_get_text (threat_type threat)), (threat_date threat); done.
Qed.

(** The dated remediation of the examples comes back without its date. *)
Lemma dated_remediation_round_trip :
  cvrf_remediation_parse (fun _ => CVRF_REMEDIATION_VENDOR_FIX)
    (cvrf_remediation_to_dom (fun _ => Some "Vendor Fix") dated_remediation) =
  mk_remediation CVRF_REMEDIATION_VENDOR_FIX None (Some "Update openssl")
    (Some "https://access.redhat.com/errata/RHSA-2017:0001") None ["p1"] [] /\
  cvrf_remediation_parse (fun _ => CVRF_REMEDIATION_VENDOR_FIX)
    (cvrf_remediation_to_dom (fun _ => Some "Vendor Fix") dated_remediation) <>
  dated_remediation.
Proof. vm_compute. split; [reflexivity|discriminate]. Qed.

(* ================================================================== *)
(** * Cloning *)

Lemma vulnerabilities_clone_fields (uninit : cvrf_vulnerability) :
  forall (vulns : list cvrf_vulnerability) (h : heap),
  let vulns' := fst (vulnerabilities_clone uninit vulns h) in
  map vuln_system_id vulns' = map vuln_system_name vulns /\
  map vuln_system_name vulns' = map (fun _ => vuln_system_name uninit) vulns /\
  map vuln_cve_id vulns' = map (fun _ => vuln_cve_id uninit) vulns.
Proof.
  induction vulns as [|v vs IH]; intros h; simpl; [done|].
  unfold cvrf_vulnerability_clone.
  destruct (product_statuses_clone (vuln_product_statuses v) h) as [stats h1].
  specialize (IH h1). simpl in IH.
  destruct (vulnerabilities_clone uninit vs h1) as [rest h2]. simpl in *.
  destruct IH as (H1 & H2 & H3). rewrite H1, H2, H3. done.
Qed.

(** The identity fields of the vulnerabilities of a model's clone: the
    system id is a copy of the original's system name, and the system
    name and CVE id are the unwritten ones of the fresh blocks. *)
Lemma cvrf_model_clone_fields (uninit : cvrf_vulnerability) (model : cvrf_model) (h : heap) :
  map vuln_system_id (model_vulnerabilities (fst (cvrf_model_clone uninit model h))) =
    map vuln_system_name (model_vulnerabilities model) /\
  map vuln_system_name (model_vulnerabilities (fst (cvrf_model_clone uninit model h))) =
    map (fun _ => vuln_system_name uninit) (model_vulnerabilities model) /\
  map vuln_cve_id (model_vulnerabilities (fst (cvrf_model_clone uninit model h))) =
    map (fun _ => vuln_cve_id uninit) (model_vulnerabilities model).
Proof.
  unfold cvrf_model_clone. simpl.
  pose proof (vulnerabilities_clone_fields uninit (model_vulnerabilities model) h) as Hf.
  simpl in Hf. destruct (vulnerabilities_clone uninit (model_vulnerabilities model) h).
  exact Hf.
Qed.

(** C10 (code bug): [cvrf_vulnerability_clone] overwrites the clone's
    system id with a copy of the system name and never writes the clone's
    system name or CVE id, which keep what the fresh [malloc] block held.
    So the clone made by [cvrf_model_clone] of any model with a
    vulnerability whose system id differs from its system name is not
    equal to the model, whatever the fresh blocks hold: in the clone the
    system id is the original's system name, and the system name and CVE
    id are the uninitialized ones. *)
Theorem cvrf_model_clone_not_equal (uninit : cvrf_vulnerability) (model : cvrf_model)
    (h : heap) :
  Exists (fun v => vuln_system_id v <> vuln_system_name v) (model_vulnerabilities model) ->
  fst (cvrf_model_clone uninit model h) <> model /\
  map vuln_system_id (model_vulnerabilities (fst (cvrf_model_clone uninit model h))) =
    map vuln_system_name (model_vulnerabilities model) /\
  map vuln_system_name (model_vulnerabilities (fst (cvrf_model_clone uninit model h))) =
    map (fun _ => vuln_system_name uninit) (model_vulnerabilities model) /\
  map vuln_cve_id (model_vulnerabilities (fst (cvrf_model_clone uninit model h))) =
    map (fun _ => vuln_cve_id uninit) (model_vulnerabilities model).
Proof.
  intros Hex. destruct (cvrf_model_clone_fields uninit model h) as (H1 & H2 & H3).
  split; [|split; [exact H1|split; [exact H2|exact H3]]].
  intros Heq. rewrite Heq in H1. clear -Hex H1.
  induction Hex as [v vs Hv|v vs _ IH]; simpl in H1; injection H1 as Hh Ht.
  - exact (Hv Hh).
  - exact (IH Ht).
Qed.

(* ================================================================== *)
(** * Instances *)

(** C2 at two platforms: filtering by platform-a keeps only the
    relationship to p1. *)
Lemma cvrf_product_tree_filter_by_cpe_keeps_related_witness :
  get_cvrf_product_id_from_cpe two_platforms_tree "platform-a" = Some "p1" /\
  Exists (fun r => rel_relates_to_ref r = "p1") (tree_relationships two_platforms_tree) /\
  cvrf_product_tree_filter_by_cpe two_platforms_tree "platform-a" =
    (0%Z, set_relationships two_platforms_tree [example_relationship "c1" "p1"]).
Proof.
  split; [reflexivity|]. split; [apply Exists_cons_hd; reflexivity|].
  rewrite (cvrf_product_tree_filter_by_cpe_keeps_related two_platforms_tree "platform-a" "p1").
  - vm_compute. reflexivity.
  - reflexivity.
  - apply Exists_cons_hd. reflexivity.
Defined.

(** C3 at a platform absent from the tree. *)
Lemma cvrf_model_filter_by_cpe_no_leaf_witness :
  ~ In "platform-c" (map fst (forest_leaves (tree_branches two_platforms_tree))) /\
  cvrf_model_filter_by_cpe (example_model two_platforms_tree [two_statuses_vulnerability])
    two_lists_heap "platform-c" =
  ((-1)%Z, example_model two_platforms_tree [two_statuses_vulnerability], two_lists_heap).
Proof.
  assert (Hnot : ~ In "platform-c" (map fst (forest_leaves (tree_branches two_platforms_tree)))).
  { vm_compute. intros [H|[H|H]]; [discriminate|discriminate|exact H]. }
  split; [exact Hnot|].
  apply (cvrf_model_filter_by_cpe_no_leaf
           (example_model two_platforms_tree [two_statuses_vulnerability]) two_lists_heap
           "platform-c").
  exact Hnot.
Defined.

(** C4: the filter fails on platform a, whose only relationship relates to
    p2, and the relationship list is still the original non-empty one. *)
Lemma cvrf_model_filter_by_cpe_keeps_relationships_counterexample :
  cvrf_model_filter_by_cpe (example_model unrelated_tree []) empty_heap "platform-a" =
    ((-1)%Z, example_model unrelated_tree [], empty_heap) /\
  tree_relationships (model_tree (example_model unrelated_tree [])) =
    [example_relationship "c2" "p2"].
Proof. vm_compute. split; reflexivity. Qed.

Lemma cvrf_model_filter_by_cpe_no_relationship_witness :
  get_cvrf_product_id_from_cpe unrelated_tree "platform-a" = Some "p1" /\
  Forall (fun r => rel_relates_to_ref r <> "p1") (tree_relationships unrelated_tree) /\
  cvrf_model_filter_by_cpe (example_model unrelated_tree []) empty_heap "platform-a" =
    ((-1)%Z, example_model unrelated_tree [], empty_heap).
Proof.
  assert (Hnone : Forall (fun r => rel_relates_to_ref r <> "p1")
                    (tree_relationships unrelated_tree)).
  { vm_compute. constructor; [discriminate|constructor]. }
  split; [reflexivity|]. split; [exact Hnone|].
  apply (cvrf_model_filter_by_cpe_no_relationship (example_model unrelated_tree [])
           empty_heap "platform-a" "p1").
  - reflexivity.
  - exact Hnone.
Defined.

(** C5: the identifier of the claim is cut at its first colon, the one
    after "cpe"; the package name comes out empty and the EVR is the rest
    of the identifier after "/". *)
Lemma parse_rpm_attributes_cpe_counterexample :
  parse_rpm_attributes_from_cvrf_product_id cpe_package_tree
    "cpe:/o:vendor:platform-a:openssl-1.0.2k-16.el7" =
  Some (mk_rpm_attributes "openssl-1.0.2k-16.el7" ""
          "o:vendor:platform-a:openssl-1.0.2k-16.el7").
Proof. vm_compute. reflexivity. Qed.

Lemma parse_rpm_attributes_first_colon_witness :
  (colon_free "7Server-7.4.Z" /\ colon_free "openssl" /\
   get_rpm_name_from_cvrf_product_id openssl_tree
     "7Server-7.4.Z:openssl-1:1.0.2k-16.el7_4" = Some "openssl-1:1.0.2k-16.el7_4" /\
   parse_rpm_attributes_from_cvrf_product_id openssl_tree
     "7Server-7.4.Z:openssl-1:1.0.2k-16.el7_4" =
   Some (mk_rpm_attributes "openssl-1:1.0.2k-16.el7_4" "openssl" "1:1.0.2k-16.el7_4")) /\
  (colon_free "7Server-7.4.Z" /\ (index_of "o:openssl" ":" < 2)%nat /\
   parse_rpm_attributes_from_cvrf_product_id openssl_tree "7Server-7.4.Z:o:openssl" = None).
Proof.
  destruct (parse_rpm_attributes_first_colon openssl_tree) as [Hname Hwrap].
  split.
  - split; [reflexivity|]. split; [reflexivity|]. split; [reflexivity|].
    apply (Hname "7Server-7.4.Z" "openssl" (String ":"%char "1.0.2k-16.el7_4")
             "openssl-1:1.0.2k-16.el7_4" "-"%char "1"%char).
    + reflexivity.
    + reflexivity.
    + discriminate.
    + discriminate.
    + right. eexists. reflexivity.
    + reflexivity.
  - split; [reflexivity|]. split; [simpl; lia|].
    apply (Hwrap "7Server-7.4.Z" "o:openssl").
    + reflexivity.
    + simpl. lia.
Defined.

(** C10 on a model with one vulnerability whose system id is ID-1 and
    system name Sys: even when the fresh block holds the original's
    fields, the clone differs from the model. *)
Lemma cvrf_model_clone_not_equal_witness :
  Exists (fun v => vuln_system_id v <> vuln_system_name v)
    (model_vulnerabilities (example_model two_platforms_tree [identified_vulnerability])) /\
  fst (cvrf_model_clone identified_vulnerability
         (example_model two_platforms_tree [identified_vulnerability]) empty_heap)
    <> example_model two_platforms_tree [identified_vulnerability].
Proof.
  assert (Hex : Exists (fun v => vuln_system_id v <> vuln_system_name v)
                  (model_vulnerabilities
                     (example_model two_platforms_tree [identified_vulnerability]))).
  { apply Exists_cons_hd. intros E. vm_compute in E. discriminate E. }
  split; [exact Hex|].
  exact (proj1 (cvrf_model_clone_not_equal identified_vulnerability
                  (example_model two_platforms_tree [identified_vulnerability]) empty_heap Hex)).
Defined.

(** C7: of two leaves named platform-a, the first one's product id. *)
Lemma get_cvrf_product_id_from_cpe_first_leaf_witness :
  Forall (fun l => snd l <> None) (forest_leaves (tree_branches twin_leaves_tree)) /\
  get_cvrf_product_id_from_cpe twin_leaves_tree "platform-a" = Some "p1".
Proof.
  assert (Hids : Forall (fun l => snd l <> None) (forest_leaves (tree_branches twin_leaves_tree))).
  { vm_compute. constructor; [discriminate|]. constructor; [discriminate|constructor]. }
  split; [exact Hids|].
  rewrite (get_cvrf_product_id_from_cpe_first_leaf twin_leaves_tree "platform-a") by exact Hids.
  vm_compute. reflexivity.
Defined.

(** C8 with three product ids: the ids 1, 2 and 3 of each kind. *)
Lemma cvrf_session_construct_definition_model_ids_witness :
  cvrf_session_construct_definition_model openssl_session empty_definition_model =
    Some openssl_definition_model /\
  map definition_id (dm_definitions openssl_definition_model) =
    ["oval:org.open-scap.unix:def:1"; "oval:org.open-scap.unix:def:2";
     "oval:org.open-scap.unix:def:3"] /\
  map test_id (dm_tests openssl_definition_model) =
    ["oval:org.open-scap.unix:tst:1"; "oval:org.open-scap.unix:tst:2";
     "oval:org.open-scap.unix:tst:3"] /\
  map state_id (dm_states openssl_definition_model) =
    ["oval:org.open-scap.unix:ste:1"; "oval:org.open-scap.unix:ste:2";
     "oval:org.open-scap.unix:ste:3"] /\
  map object_id (dm_objects openssl_definition_model) =
    ["oval:org.open-scap.unix:obj:1"; "oval:org.open-scap.unix:obj:2";
     "oval:org.open-scap.unix:obj:3"].
Proof.
  assert (Hc : cvrf_session_construct_definition_model openssl_session empty_definition_model =
                 Some openssl_definition_model) by reflexivity.
  destruct (cvrf_session_construct_definition_model_ids openssl_session
              empty_definition_model openssl_definition_model Hc) as (Hd & Ht & Hs & Ho).
  split; [exact Hc|].
  rewrite Hd, Ht, Hs, Ho. vm_compute. repeat split.
Defined.

(* ================================================================== *)
(** * Cloning the product tree and the document *)

Lemma map_pointwise_id {A} (f : A -> A) (l : list A) :
  (forall x, f x = x) -> map f l = l.
Proof. intros Hf. induction l as [|x l IH]; simpl; [done|]. by rewrite Hf, IH. Qed.

Lemma cvrf_branch_clone_id (b : cvrf_branch) : cvrf_branch_clone b = b.
Proof.
  induction b as [ty nm [pid cpe] subs IH] using cvrf_branch_nested_ind. simpl.
  f_equal. induction IH as [|b subs Hb _ IHs]; simpl; congruence.
Qed.

(** X1: cloning a product tree (branches at every depth, product names,
    relationships, groups) or a document (tracking with its revision
    history, publisher, notes, references, acknowledgments) copies every
    field: the clone equals the original. *)
Theorem cvrf_product_tree_and_document_clone_equal (tree : cvrf_product_tree)
    (doc : cvrf_document) :
  cvrf_product_tree_clone tree = tree /\ cvrf_document_clone doc = doc.
Proof.
  split.
  - destruct tree as [names branches rels groups]. unfold cvrf_product_tree_clone. simpl.
    rewrite (map_pointwise_id cvrf_product_name_clone) by (intros [? ?]; done).
    rewrite (map_pointwise_id cvrf_branch_clone) by apply cvrf_branch_clone_id.
    rewrite (map_pointwise_id cvrf_relationship_clone) by apply cvrf_relationship_clone_id.
    rewrite (map_pointwise_id cvrf_group_clone) by (intros [? ? ?]; done).
    done.
  - destruct doc as [dist sev ns [tid aliases st ver revs init cur eng gdate] [? ? ? ?]
                     notes refs acks].
    unfold cvrf_document_clone, cvrf_doc_tracking_clone. simpl.
    rewrite (map_pointwise_id cvrf_revision_clone) by (intros [? ? ?]; done).
    rewrite (map_pointwise_id cvrf_note_clone) by (intros [? ? ? ? ?]; done).
    rewrite (map_pointwise_id cvrf_reference_clone) by (intros [? ? ?]; done).
    rewrite (map_pointwise_id cvrf_acknowledgment_clone) by (intros [? ? ? ?]; done).
    done.
Qed.

(* ================================================================== *)
(** * Cloning the product statuses *)

Lemma stringlist_get_same (h h' : heap) (l : loc) :
  cells h' !! l = cells h !! l -> stringlist_get h' l = stringlist_get h l.
Proof. intros E. unfold stringlist_get. rewrite !lookup_total_alt, E. done. Qed.

(** X2: cloning a list of product statuses whose lists lie below the
    heap's next free location keeps each status type, gives each clone a
    fresh list of its own (pairwise distinct, at or above the old next free
    location) holding the same ids as the original, and changes no list
    that existed before. *)
Theorem product_statuses_clone_fresh :
  forall (stats : list cvrf_product_status) (h : heap),
  Forall (fun stat => (ps_product_ids stat < next_loc h)%positive) stats ->
  let '(stats', h') := product_statuses_clone stats h in
  map ps_type stats' = map ps_type stats /\
  Forall2 (fun stat stat' =>
             stringlist_get h' (ps_product_ids stat') = stringlist_get h (ps_product_ids stat))
    stats stats' /\
  NoDup (map ps_product_ids stats') /\
  Forall (fun stat' => (next_loc h <= ps_product_ids stat')%positive) stats' /\
  (forall l, (l < next_loc h)%positive -> cells h' !! l = cells h !! l).
Proof.
  induction stats as [|[ty l] rest IH]; intros h Hlt; simpl.
  - repeat split; constructor.
  - inversion Hlt as [|? ? Hl Hrest]; subst. simpl in Hl.
    set (h1 := mk_heap (<[next_loc h := stringlist_get h l]> (cells h))
                 (Pos.succ (next_loc h))).
    assert (Hrest1 : Forall (fun stat => (ps_product_ids stat < next_loc h1)%positive) rest).
    { eapply Forall_impl; [exact Hrest|]. simpl. intros stat Hs. lia. }
    specialize (IH h1 Hrest1).
    destruct (product_statuses_clone rest h1) as [rest' h'].
    destruct IH as (Htypes & Hget & Hnodup & Hfresh & Hframe).
    assert (Hn : cells h' !! next_loc h = cells h1 !! next_loc h).
    { apply Hframe. simpl. lia. }
    repeat split.
    + simpl. rewrite Htypes. done.
    + constructor.
      * simpl. rewrite (stringlist_get_same h1 h') by exact Hn.
        unfold stringlist_get, h1. simpl. rewrite lookup_total_insert, decide_True by done.
        done.
      * clear -Hget Hrest. induction Hget as [|s s' ss ss' Hs _ IHg]; [constructor|].
        inversion Hrest as [|? ? Hs0 Hss]; subst. constructor; [|exact (IHg Hss)].
        rewrite Hs. apply stringlist_get_same. simpl.
        rewrite lookup_insert_ne by lia. done.
    + simpl. constructor; [|exact Hnodup].
      intros Hin. apply list_elem_of_fmap in Hin as (s' & Heq & Hs').
      eapply Forall_forall in Hfresh; [|exact Hs']. simpl in Hfresh. lia.
    + constructor; [simpl; lia|].
      eapply Forall_impl; [exact Hfresh|]. simpl. intros s' Hs'. lia.
    + intros l' Hl'. rewrite Hframe by (simpl; lia). simpl.
      rewrite lookup_insert_ne by lia. done.
Qed.

(** X2 on the two statuses of the examples: each clone has its own list,
    with the original's ids. *)
Lemma product_statuses_clone_fresh_witness :
  Forall (fun stat => (ps_product_ids stat < next_loc two_lists_heap)%positive)
    (vuln_product_statuses two_statuses_vulnerability) /\
  let '(stats', h') :=
    product_statuses_clone (vuln_product_statuses two_statuses_vulnerability) two_lists_heap in
  Forall2 (fun stat stat' =>
             stringlist_get h' (ps_product_ids stat') =
             stringlist_get two_lists_heap (ps_product_ids stat))
    (vuln_product_statuses two_statuses_vulnerability) stats' /\
  NoDup (map ps_product_ids stats').
Proof.
  assert (Hlt : Forall (fun stat => (ps_product_ids stat < next_loc two_lists_heap)%positive)
                  (vuln_product_statuses two_statuses_vulnerability)).
  { simpl. constructor; [simpl; lia|]. constructor; [simpl; lia|constructor]. }
  split; [exact Hlt|].
  pose proof (product_statuses_clone_fresh (vuln_product_statuses two_statuses_vulnerability)
                two_lists_heap Hlt) as Hc.
  destruct (product_statuses_clone (vuln_product_statuses two_statuses_vulnerability)
              two_lists_heap) as [stats' h'].
  destruct Hc as (_ & Hget & Hnodup & _). split; [exact Hget|exact Hnodup].
Defined.

(* ================================================================== *)
(** * Filtering a vulnerability by product *)

Lemma stringlist_get_add (h : heap) (l : loc) (s : string) :
  stringlist_get (stringlist_add h l s) l = (stringlist_get h l ++ [s])%list.
Proof.
  unfold stringlist_get at 1, stringlist_add. simpl.
  rewrite lookup_total_insert, decide_True by done. done.
Qed.

Lemma add_matching_ids_spec (h : heap) (fl : loc) (prod : string) (ids : list string) :
  stringlist_get (add_matching_ids h fl prod ids) fl =
    (stringlist_get h fl ++ List.filter (fun id => oscap_str_startswith id prod) ids)%list /\
  (forall l, l <> fl -> cells (add_matching_ids h fl prod ids) !! l = cells h !! l) /\
  next_loc (add_matching_ids h fl prod ids) = next_loc h.
Proof.
  unfold add_matching_ids. revert h.
  induction ids as [|id ids IH]; intros h; simpl.
  - rewrite app_nil_r. done.
  - destruct (oscap_str_startswith id prod).
    + destruct (IH (stringlist_add h fl id)) as (Hg & Hf & Hn). split; [|split].
      * rewrite Hg, stringlist_get_add, <- app_assoc. done.
      * intros l Hl. rewrite Hf by exact Hl. simpl. rewrite lookup_insert_ne by congruence.
        done.
      * rewrite Hn. done.
    + apply IH.
Qed.

Lemma add_matching_ids_none (h : heap) (fl : loc) (prod : string) (ids : list string) :
  List.filter (fun id => oscap_str_startswith id prod) ids = [] ->
  add_matching_ids h fl prod ids = h.
Proof.
  unfold add_matching_ids. revert h.
  induction ids as [|id ids IH]; intros h Hnone; simpl in *; [done|].
  destruct (oscap_str_startswith id prod); [discriminate|]. apply IH. exact Hnone.
Qed.

Lemma flat_map_Forall_ext {A B} (f g : A -> list B) (l : list A) :
  Forall (fun x => f x = g x) l -> flat_map f l = flat_map g l.
Proof. induction 1; simpl; congruence. Qed.

(** The status loop once the shared list is known not to end up empty:
    every status is pointed at it, its ids are appended to it and its own
    list is freed. *)
Lemma filter_statuses_nonempty (fl : loc) (prod : string) :
  forall (stats : list cvrf_product_status) (h : heap),
  match stats with
  | [] => True
  | stat :: _ => (stringlist_get h fl ++ status_matches h prod stat)%list <> []
  end ->
  NoDup (map ps_product_ids stats) ->
  Forall (fun stat => ps_product_ids stat <> fl) stats ->
  let '(ret, stats', h') := filter_statuses fl prod stats h in
  ret = 0%Z /\
  stats' = map (fun stat => mk_product_status (ps_type stat) fl) stats /\
  stringlist_get h' fl =
    (stringlist_get h fl ++ flat_map (status_matches h prod) stats)%list /\
  Forall (fun stat => cells h' !! ps_product_ids stat = None) stats /\
  (forall l, l <> fl -> l ∉ map ps_product_ids stats -> cells h' !! l = cells h !! l) /\
  next_loc h' = next_loc h.
Proof.
  induction stats as [|[ty l0] rest IH]; intros h Hne Hnodup Hfl; simpl.
  - rewrite app_nil_r. split; [done|]. split; [done|]. split; [done|].
    split; [constructor|]. split; [intros; done|done].
  - inversion Hnodup as [|? ? Hl0 Hnodup']; subst.
    inversion Hfl as [|? ? Hl0fl Hfl']; subst. simpl in Hl0fl.
    destruct (add_matching_ids_spec h fl prod (stringlist_get h l0)) as (Hg1 & Hf1 & Hn1).
    set (h1 := add_matching_ids h fl prod (stringlist_get h l0)) in *.
    assert (Hlen : Nat.eqb (List.length (stringlist_get h1 fl)) 0 = false).
    { rewrite Hg1. apply Nat.eqb_neq. intros Hl. apply length_zero_iff_nil in Hl.
      exact (Hne Hl). }
    rewrite Hlen.
    set (h2 := stringlist_free h1 l0).
    assert (Hf2 : forall l, l <> l0 -> cells h2 !! l = cells h1 !! l).
    { intros l Hl. unfold h2, stringlist_free. simpl. rewrite lookup_delete_ne by congruence.
      done. }
    assert (Hg2 : stringlist_get h2 fl = stringlist_get h1 fl).
    { apply stringlist_get_same, Hf2. congruence. }
    assert (Hne2 : match rest with
                   | [] => True
                   | stat :: _ => (stringlist_get h2 fl ++ status_matches h2 prod stat)%list <> []
                   end).
    { destruct rest as [|s rest]; [done|].
      rewrite Hg2, Hg1. intros Happ. apply app_eq_nil in Happ as [Happ _]. exact (Hne Happ). }
    specialize (IH h2 Hne2 Hnodup' Hfl').
    destruct (filter_statuses fl prod rest h2) as [[ret rest'] h'].
    destruct IH as (Hret & Hrest' & Hg' & Hfree & Hframe & Hn').
    (* the lists of the later statuses are those of [h] until they are freed *)
    assert (Hsame : forall l, l <> fl -> l <> l0 -> cells h2 !! l = cells h !! l).
    { intros l Hl Hl'. rewrite Hf2 by exact Hl'. apply Hf1. exact Hl. }
    repeat split.
    + exact Hret.
    + rewrite Hrest'. done.
    + rewrite Hg', Hg2, Hg1. simpl. rewrite <- !app_assoc. f_equal. f_equal.
      apply flat_map_Forall_ext. apply Forall_forall. intros [ty' l'] Hin.
      unfold status_matches. simpl. f_equal. apply stringlist_get_same, Hsame.
      * eapply Forall_forall in Hfl'; [|exact Hin]. exact Hfl'.
      * intros ->. apply Hl0. apply list_elem_of_fmap. exists (mk_product_status ty' l0).
        done.
    + constructor; [|exact Hfree]. simpl.
      rewrite Hframe by (done || congruence). unfold h2, stringlist_free. simpl.
      apply lookup_delete_eq.
    + intros l Hl Hnotin. simpl in Hnotin. apply not_elem_of_cons in Hnotin as [Hl0' Hnotin].
      rewrite Hframe by done. apply Hsame; done.
    + rewrite Hn'. unfold h2, stringlist_free. simpl. exact Hn1.
Qed.

(** X3: when no id of the first product status starts with [prod], the
    filter returns -1 and leaves the vulnerability as it was; the list it
    allocated is freed again (its location is used up). *)
Theorem cvrf_vulnerability_filter_by_product_no_match (vuln : cvrf_vulnerability)
    (prod : string) (h : heap) (stat : cvrf_product_status) (rest : list cvrf_product_status) :
  vuln_product_statuses vuln = stat :: rest ->
  ps_product_ids stat <> next_loc h ->
  status_matches h prod stat = [] ->
  cvrf_vulnerability_filter_by_product vuln prod h =
    ((-1)%Z, vuln, mk_heap (delete (next_loc h) (cells h)) (Pos.succ (next_loc h))).
Proof.
  intros Hstats Hl Hnone. unfold cvrf_vulnerability_filter_by_product, stringlist_new.
  rewrite Hstats. cbn [filter_statuses].
  set (h0 := mk_heap (<[next_loc h := []]> (cells h)) (Pos.succ (next_loc h))).
  assert (Hg0 : stringlist_get h0 (ps_product_ids stat) = stringlist_get h (ps_product_ids stat)).
  { apply stringlist_get_same. simpl. rewrite lookup_insert_ne by congruence. done. }
  rewrite Hg0, add_matching_ids_none by exact Hnone.
  assert (Hempty : stringlist_get h0 (next_loc h) = []).
  { unfold stringlist_get. simpl. rewrite lookup_total_insert, decide_True by done. done. }
  rewrite Hempty. simpl. unfold stringlist_free. simpl.
  rewrite delete_insert_eq. rewrite <- Hstats. destruct vuln. done.
Qed.

(** X3 with prefix p3, which no id of the examples has. *)
Lemma cvrf_vulnerability_filter_by_product_no_match_witness :
  vuln_product_statuses platform_vulnerability =
    mk_product_status CVRF_PRODUCT_STATUS_FIXED 1
      :: [mk_product_status CVRF_PRODUCT_STATUS_KNOWN_AFFECTED 2] /\
  ps_product_ids (mk_product_status CVRF_PRODUCT_STATUS_FIXED 1) <> next_loc platform_lists_heap /\
  status_matches platform_lists_heap "p3" (mk_product_status CVRF_PRODUCT_STATUS_FIXED 1) = [] /\
  cvrf_vulnerability_filter_by_product platform_vulnerability "p3" platform_lists_heap =
    ((-1)%Z, platform_vulnerability,
     mk_heap (delete (next_loc platform_lists_heap) (cells platform_lists_heap))
       (Pos.succ (next_loc platform_lists_heap))).
Proof.
  split; [reflexivity|]. split; [discriminate|]. split; [vm_compute; reflexivity|].
  apply (cvrf_vulnerability_filter_by_product_no_match platform_vulnerability "p3"
           platform_lists_heap (mk_product_status CVRF_PRODUCT_STATUS_FIXED 1)
           [mk_product_status CVRF_PRODUCT_STATUS_KNOWN_AFFECTED 2]).
  - reflexivity.
  - discriminate.
  - vm_compute. reflexivity.
Defined.

(** X4: when some id of the first product status starts with [prod] (the
    statuses having distinct lists, none at the next free location), the
    filter returns 0; every status keeps its type and points at the one new
    list, which holds the matching ids of all statuses in order; the
    statuses' old lists are freed and no other list changes. *)
Theorem cvrf_vulnerability_filter_by_product_first_match (vuln : cvrf_vulnerability)
    (prod : string) (h : heap) (stat : cvrf_product_status) (rest : list cvrf_product_status) :
  vuln_product_statuses vuln = stat :: rest ->
  status_matches h prod stat <> [] ->
  NoDup (map ps_product_ids (stat :: rest)) ->
  Forall (fun s => ps_product_ids s <> next_loc h) (stat :: rest) ->
  let '(ret, vuln', h') := cvrf_vulnerability_filter_by_product vuln prod h in
  ret = 0%Z /\
  vuln' = set_product_statuses vuln
            (map (fun s => mk_product_status (ps_type s) (next_loc h)) (stat :: rest)) /\
  stringlist_get h' (next_loc h) = flat_map (status_matches h prod) (stat :: rest) /\
  Forall (fun s => cells h' !! ps_product_ids s = None) (stat :: rest) /\
  (forall l, l <> next_loc h -> l ∉ map ps_product_ids (stat :: rest) ->
             cells h' !! l = cells h !! l).
Proof.
  intros Hstats Hmatch Hnodup Hfl. unfold cvrf_vulnerability_filter_by_product, stringlist_new.
  rewrite Hstats.
  set (h0 := mk_heap (<[next_loc h := []]> (cells h)) (Pos.succ (next_loc h))).
  assert (Hsame : forall l, l <> next_loc h -> cells h0 !! l = cells h !! l).
  { intros l Hl. simpl. rewrite lookup_insert_ne by congruence. done. }
  assert (Hmatches : Forall (fun s => status_matches h0 prod s = status_matches h prod s)
                       (stat :: rest)).
  { eapply Forall_impl; [exact Hfl|]. intros s Hs. unfold status_matches.
    rewrite (stringlist_get_same h h0) by (apply Hsame; exact Hs). done. }
  assert (Hempty : stringlist_get h0 (next_loc h) = []).
  { unfold stringlist_get. simpl. rewrite lookup_total_insert, decide_True by done. done. }
  assert (Hne : (stringlist_get h0 (next_loc h) ++ status_matches h0 prod stat)%list <> []).
  { rewrite Hempty. inversion Hmatches as [|? ? Hs _]. simpl. rewrite Hs. exact Hmatch. }
  pose proof (filter_statuses_nonempty (next_loc h) prod (stat :: rest) h0 Hne Hnodup Hfl)
    as Hrun.
  destruct (filter_statuses (next_loc h) prod (stat :: rest) h0) as [[ret stats'] h'].
  destruct Hrun as (Hret & Hstats' & Hg & Hfree & Hframe & _).
  split; [exact Hret|]. split; [rewrite Hstats'; done|]. split.
  - rewrite Hg, Hempty, app_nil_l. apply flat_map_Forall_ext. exact Hmatches.
  - split; [exact Hfree|]. intros l Hl Hnotin. rewrite Hframe by done. apply Hsame. exact Hl.
Qed.

(** X4 with prefix p2: the new list (location 3) holds the p2 ids of both
    statuses. *)
Lemma cvrf_vulnerability_filter_by_product_first_match_witness :
  vuln_product_statuses platform_vulnerability =
    mk_product_status CVRF_PRODUCT_STATUS_FIXED 1
      :: [mk_product_status CVRF_PRODUCT_STATUS_KNOWN_AFFECTED 2] /\
  status_matches platform_lists_heap "p2" (mk_product_status CVRF_PRODUCT_STATUS_FIXED 1) <> [] /\
  let '(ret, _, h') :=
    cvrf_vulnerability_filter_by_product platform_vulnerability "p2" platform_lists_heap in
  ret = 0%Z /\ stringlist_get h' 3 = ["p2:openssl"; "p2:bash"].
Proof.
  assert (Hmatch : status_matches platform_lists_heap "p2"
                     (mk_product_status CVRF_PRODUCT_STATUS_FIXED 1) <> []).
  { vm_compute. discriminate. }
  assert (Hnodup : NoDup (map ps_product_ids
                     (mk_product_status CVRF_PRODUCT_STATUS_FIXED 1
                        :: [mk_product_status CVRF_PRODUCT_STATUS_KNOWN_AFFECTED 2]))).
  { simpl. constructor; [|constructor; [|constructor]].
    - intros Hin. apply list_elem_of_singleton in Hin. discriminate.
    - intros Hin. inversion Hin. }
  assert (Hfl : Forall (fun s => ps_product_ids s <> next_loc platform_lists_heap)
                  (mk_product_status CVRF_PRODUCT_STATUS_FIXED 1
                     :: [mk_product_status CVRF_PRODUCT_STATUS_KNOWN_AFFECTED 2])).
  { constructor; [discriminate|]. constructor; [discriminate|constructor]. }
  split; [reflexivity|]. split; [exact Hmatch|].
  pose proof (cvrf_vulnerability_filter_by_product_first_match platform_vulnerability "p2"
                platform_lists_heap (mk_product_status CVRF_PRODUCT_STATUS_FIXED 1)
                [mk_product_status CVRF_PRODUCT_STATUS_KNOWN_AFFECTED 2]
                eq_refl Hmatch Hnodup Hfl) as Hrun.
  destruct (cvrf_vulnerability_filter_by_product platform_vulnerability "p2"
              platform_lists_heap) as [[ret v'] h'].
  destruct Hrun as (Hret & _ & Hg & _). split; [exact Hret|].
  change 3%positive with (next_loc platform_lists_heap). rewrite Hg.
  vm_compute. reflexivity.
Defined.

(* ================================================================== *)
(** * Platform search and filtering, further *)

Lemma filter_idem {A} (p : A -> bool) (l : list A) :
  List.filter p (List.filter p l) = List.filter p l.
Proof.
  induction l as [|x l IH]; simpl; [done|].
  destruct (p x) eqn:E; simpl; [rewrite E|]; congruence.
Qed.

(** X5: filtering a product tree a second time by the same platform
    changes nothing more and returns the same code. *)
Theorem cvrf_product_tree_filter_by_cpe_idempotent (tree : cvrf_product_tree) (cpe : string) :
  cvrf_product_tree_filter_by_cpe (snd (cvrf_product_tree_filter_by_cpe tree cpe)) cpe =
  cvrf_product_tree_filter_by_cpe tree cpe.
Proof.
  unfold cvrf_product_tree_filter_by_cpe at 2 3.
  destruct (get_cvrf_product_id_from_cpe tree cpe) as [pid|] eqn:E.
  - rewrite filter_clone_relationships.
    destruct (List.filter _ (tree_relationships tree)) as [|r rest] eqn:F.
    + simpl. unfold cvrf_product_tree_filter_by_cpe.
      rewrite E, filter_clone_relationships, F. done.
    + simpl. unfold cvrf_product_tree_filter_by_cpe.
      assert (Eb : get_cvrf_product_id_from_cpe (set_relationships tree (r :: rest)) cpe =
                   Some pid) by exact E.
      assert (Er : tree_relationships (set_relationships tree (r :: rest)) = r :: rest)
        by reflexivity.
      rewrite Eb, filter_clone_relationships, Er, <- F, filter_idem, F.
      destruct tree. done.
  - simpl. unfold cvrf_product_tree_filter_by_cpe. rewrite E. done.
Qed.

(** X6: the platform search returns the product id of the first Leaf
    (in depth-first document order) that is named [cpe] and has a product
    id; a matching Leaf without one is skipped. *)
Theorem get_cvrf_product_id_from_cpe_first_leaf_with_id (tree : cvrf_product_tree)
    (cpe : string) :
  get_cvrf_product_id_from_cpe tree cpe =
  match List.find (fun l => String.eqb (fst l) cpe && bool_decide (snd l <> None))
          (forest_leaves (tree_branches tree)) with
  | Some l => snd l
  | None => None
  end.
Proof.
  rewrite get_cvrf_product_id_from_cpe_leaves. unfold leaf_search.
  induction (forest_leaves (tree_branches tree)) as [|[nm pid] rest IH]; simpl; [done|].
  destruct (String.eqb nm cpe), pid as [p|]; simpl; done.
Qed.

(* ================================================================== *)
(** * Collecting product ids over an index *)

Lemma add_relationship_product_ids_omap (rels : list cvrf_relationship)
    (product_ids : list string) :
  add_relationship_product_ids rels product_ids =
  (product_ids ++ omap (fun r => pn_product_id (rel_product_name r)) rels)%list.
Proof.
  unfold add_relationship_product_ids. revert product_ids.
  induction rels as [|r rels IH]; intros product_ids; simpl.
  - rewrite app_nil_r. done.
  - rewrite IH. destruct (pn_product_id (rel_product_name r)); simpl;
      [rewrite <- app_assoc|rewrite app_nil_r]; done.
Qed.

Lemma find_all_cvrf_product_ids_from_cpe_ids (model : cvrf_model) (h : heap)
    (os_name : string) (product_ids : list string) :
  (find_all_cvrf_product_ids_from_cpe model h os_name product_ids).2 =
  (product_ids ++ found_product_ids (model_tree model) os_name)%list.
Proof.
  unfold find_all_cvrf_product_ids_from_cpe, cvrf_model_filter_by_cpe,
    cvrf_product_tree_filter_by_cpe, found_product_ids.
  destruct (get_cvrf_product_id_from_cpe (model_tree model) os_name) as [pid|] eqn:E.
  - rewrite filter_clone_relationships.
    destruct (List.filter _ (tree_relationships (model_tree model))) as [|r rest] eqn:F.
    + simpl. rewrite app_nil_r. done.
    + destruct (filter_vulnerabilities pid _ h) as [vulns h'].
      cbn -[add_relationship_product_ids omap]. apply add_relationship_product_ids_omap.
  - simpl. rewrite app_nil_r. done.
Qed.

(** X7: [find_all_cvrf_product_ids_from_cpe] appends to the session's list
    exactly the product ids of the Relationships relating to the product id
    found for the platform, in document order, and nothing when the
    platform search or the filter fails. *)
Theorem find_all_cvrf_product_ids_from_cpe_appends (model : cvrf_model) (h : heap)
    (os_name : string) (product_ids : list string) :
  (find_all_cvrf_product_ids_from_cpe model h os_name product_ids).2 =
  (product_ids ++ found_product_ids (model_tree model) os_name)%list.
Proof. apply find_all_cvrf_product_ids_from_cpe_ids. Qed.

(** X8: over an index, the session's product-id list is never reset: after
    the loop it is the starting list followed by the ids found in each
    model in turn, and the Results document of the k-th model, appended to
    the Index element, is built from the list accumulated up to and
    including that model. *)
Theorem index_models_results_accumulate
    (doc_to_dom : cvrf_document -> list xml_node)
    (vuln_to_dom : heap -> cvrf_vulnerability -> xml_node) (os_name : string) :
  forall models h product_ids dm index_node index_node' h' product_ids' dm',
  index_models_results doc_to_dom vuln_to_dom os_name models h product_ids dm index_node =
    Some (index_node', h', product_ids', dm') ->
  product_ids' =
    (product_ids ++
     List.concat (map (fun m => found_product_ids (model_tree m) os_name) models))%list /\
  exists results,
    xml_children index_node' = (xml_children index_node ++ results)%list /\
    Forall2 (fun result ids => exists m hk,
               result = cvrf_model_results_to_dom doc_to_dom vuln_to_dom (mk_session m hk ids))
      results
      (accumulated_ids product_ids
         (map (fun m => found_product_ids (model_tree m) os_name) models)).
Proof.
  induction models as [|model models IH];
    intros h product_ids dm index_node index_node' h' product_ids' dm' Hrun; simpl in Hrun.
  - injection Hrun as <- <- <- <-. split; [rewrite app_nil_r; done|].
    exists []. rewrite app_nil_r. split; [done|constructor].
  - pose proof (find_all_cvrf_product_ids_from_cpe_ids model h os_name product_ids) as Hids.
    destruct (find_all_cvrf_product_ids_from_cpe model h os_name product_ids)
      as [[[ret model1] h1] ids1]. simpl in Hids. subst ids1.
    destruct (cvrf_session_construct_definition_model _ dm) as [dm1|]; [|discriminate].
    destruct (IH _ _ _ _ _ _ _ _ Hrun) as [Hp (results & Hc & Hf)].
    split.
    + rewrite Hp. simpl. rewrite app_assoc. done.
    + eexists (_ :: results). split.
      * rewrite Hc. simpl. rewrite <- app_assoc. done.
      * simpl. constructor; [eauto|exact Hf].
Qed.

(** X8 on an index holding the same advisory twice: the second session
    lists the package twice, and the Index gets two Results documents. *)
Lemma index_models_results_accumulate_witness :
  match index_models_results (fun _ => []) (fun _ _ => xml_new_node "Vulnerability")
          "platform-a"
          [example_model openssl_platform_tree []; example_model openssl_platform_tree []]
          empty_heap [] empty_definition_model (xml_new_node "Index") with
  | Some (index_node', _, product_ids', _) =>
      product_ids' = ["platform-a:openssl-1:1.0.2k-16.el7_4";
                      "platform-a:openssl-1:1.0.2k-16.el7_4"] /\
      List.length (xml_children index_node') = 2%nat
  | None => False
  end.
Proof.
  destruct (index_models_results (fun _ => []) (fun _ _ => xml_new_node "Vulnerability")
              "platform-a"
              [example_model openssl_platform_tree []; example_model openssl_platform_tree []]
              empty_heap [] empty_definition_model (xml_new_node "Index"))
    as [[[[index_node' h'] product_ids'] dm']|] eqn:E.
  - destruct (index_models_results_accumulate _ _ _ _ _ _ _ _ _ _ _ _ E)
      as [Hids (results & Hc & Hf)].
    split.
    + rewrite Hids. vm_compute. reflexivity.
    + rewrite Hc. apply Forall2_length in Hf. rewrite length_app, Hf. vm_compute. reflexivity.
  - vm_compute in E. discriminate.
Defined.

(* ================================================================== *)
(** * OVAL synthesis without package leaves *)

Lemma rpm_name_from_branches_no_version (branches : list cvrf_branch) (product_id : string) :
  Forall (fun b => br_type b <> CVRF_BRANCH_PRODUCT_VERSION) branches ->
  rpm_name_from_branches branches product_id = None.
Proof.
  induction 1 as [|b rest Hb _ IH]; simpl; [done|].
  rewrite decide_False by exact Hb. exact IH.
Qed.

(** X9: when no top-level branch of the product tree is a PRODUCT_VERSION
    branch (packages nested under vendor or family branches), the package
    name lookup finds nothing for any product id and the synthesis hits
    undefined behaviour ([strdup(NULL)]) as soon as the session lists a
    product id. *)
Theorem cvrf_session_construct_definition_model_no_version_branch
    (session : cvrf_session) (dm : oval_definition_model) :
  Forall (fun b => br_type b <> CVRF_BRANCH_PRODUCT_VERSION)
    (tree_branches (model_tree (session_model session))) ->
  session_product_ids session <> [] ->
  cvrf_session_construct_definition_model session dm = None.
Proof.
  intros Hnone Hids. unfold cvrf_session_construct_definition_model.
  destruct (session_product_ids session) as [|product_id rest]; [done|]. simpl.
  unfold parse_rpm_attributes_from_cvrf_product_id, get_rpm_name_from_cvrf_product_id.
  rewrite rpm_name_from_branches_no_version by exact Hnone. done.
Qed.

(** X9 on the vendor tree of two platforms, whose only top-level branch is
    a family. *)
Lemma cvrf_session_construct_definition_model_no_version_branch_witness :
  Forall (fun b => br_type b <> CVRF_BRANCH_PRODUCT_VERSION)
    (tree_branches two_platforms_tree) /\
  cvrf_session_construct_definition_model
    (mk_session (example_model two_platforms_tree []) empty_heap ["c1"])
    empty_definition_model = None.
Proof.
  assert (Hnone : Forall (fun b => br_type b <> CVRF_BRANCH_PRODUCT_VERSION)
                    (tree_branches two_platforms_tree)).
  { constructor; [discriminate|constructor]. }
  split; [exact Hnone|].
  apply (cvrf_session_construct_definition_model_no_version_branch
           (mk_session (example_model two_platforms_tree []) empty_heap ["c1"])
           empty_definition_model).
  - exact Hnone.
  - discriminate.
Defined.

(* ================================================================== *)
(** * Serializers and parsers, further *)

Lemma fold_add_child_opt {A} (f : A -> option xml_node) (items : list A) (root : xml_node) :
  fold_left (fun p item => xml_add_child_opt p (f item)) items root =
  XElem (xml_name root) (xml_attrs root) (xml_content root)
    (xml_children root ++ omap f items)%list.
Proof.
  revert root. induction items as [|x items IH]; intros root; simpl.
  - rewrite app_nil_r. destruct root. done.
  - rewrite IH. destruct (f x); simpl; [|done]. rewrite <- app_assoc. done.
Qed.

(** X10: serializing an empty list adds nothing (no empty container);
    a non-empty list appends the serializations of its items, in order,
    skipping the NULL ones, to the given parent, or to one new container
    element added to the parent. *)
Theorem cvrf_list_to_dom_children {A} (item_to_dom : A -> option xml_node)
    (container_tag : string) (items : list A) (parent : xml_node) :
  cvrf_list_to_dom item_to_dom container_tag items (Some parent) =
    match items with
    | [] => None
    | _ => Some (XElem (xml_name parent) (xml_attrs parent) (xml_content parent)
                   (xml_children parent ++ omap item_to_dom items)%list)
    end /\
  cvrf_element_add_container item_to_dom container_tag items parent =
    match items with
    | [] => parent
    | _ => xml_add_child parent (XElem container_tag [] None (omap item_to_dom items))
    end.
Proof.
  unfold cvrf_element_add_container, cvrf_list_to_dom.
  destruct items as [|x rest]; [done|]. rewrite !fold_add_child_opt. done.
Qed.

(** X11: a product name whose CPE text is not empty is parsed back from
    its FullProductName element unchanged; one without a CPE text is not
    serialized. *)
Theorem cvrf_product_name_round_trip (full_name : cvrf_product_name) :
  pn_cpe full_name <> Some "" ->
  option_map cvrf_product_name_parse (cvrf_product_name_to_dom full_name) =
  match pn_cpe full_name with
  | Some _ => Some full_name
  | None => None
  end.
Proof. intros _. destruct full_name as [[pid|] [cpe|]]; done. Qed.

(** X11 on the product name of platform a. *)
Lemma cvrf_product_name_round_trip_witness :
  pn_cpe (mk_product_name (Some "p1") (Some "platform-a")) <> Some "" /\
  option_map cvrf_product_name_parse
    (cvrf_product_name_to_dom (mk_product_name (Some "p1") (Some "platform-a"))) =
  Some (mk_product_name (Some "p1") (Some "platform-a")).
Proof.
  assert (Hne : pn_cpe (mk_product_name (Some "p1") (Some "platform-a")) <> Some "")
    by discriminate.
  split; [exact Hne|].
  exact (cvrf_product_name_round_trip (mk_product_name (Some "p1") (Some "platform-a")) Hne).
Defined.

(** X12: a CWE whose text is not empty is parsed back from its CWE
    element unchanged; one without a text is not serialized (its ID is
    lost). *)
Theorem cvrf_vulnerability_cwe_round_trip (vuln_cwe : cvrf_vulnerability_cwe) :
  cwe_cwe vuln_cwe <> Some "" ->
  option_map cvrf_vulnerability_cwe_parse (cvrf_vulnerability_cwe_to_dom vuln_cwe) =
  match cwe_cwe vuln_cwe with
  | Some _ => Some vuln_cwe
  | None => None
  end.
Proof. intros _. destruct vuln_cwe as [[cwe|] [id|]]; done. Qed.

(** X12 on CWE-79 with its ID. *)
Lemma cvrf_vulnerability_cwe_round_trip_witness :
  cwe_cwe (mk_vulnerability_cwe (Some "CWE-79") (Some "79")) <> Some "" /\
  option_map cvrf_vulnerability_cwe_parse
    (cvrf_vulnerability_cwe_to_dom (mk_vulnerability_cwe (Some "CWE-79") (Some "79"))) =
  Some (mk_vulnerability_cwe (Some "CWE-79") (Some "79")).
Proof.
  assert (Hne : cwe_cwe (mk_vulnerability_cwe (Some "CWE-79") (Some "79")) <> Some "")
    by discriminate.
  split; [exact Hne|].
  exact (cvrf_vulnerability_cwe_round_trip (mk_vulnerability_cwe (Some "CWE-79") (Some "79"))
           Hne).
Defined.

Lemma cvrf_element_add_stringlist_children (l : list string) (tag : string) (parent : xml_node) :
  cvrf_element_add_stringlist l tag parent =
  XElem (xml_name parent) (xml_attrs parent) (xml_content parent)
    (xml_children parent ++ map (fun s => XElem tag [] (Some s) []) l)%list.
Proof. apply (fold_left_add_child (fun s => XElem tag [] (Some s) [])). Qed.

Lemma fold_group_parse_product_ids (l : list string) (group : cvrf_group) :
  fold_left group_parse_child (map (fun s => XElem "ProductID" [] (Some s) []) l) group =
  mk_group (group_group_id group) (group_description group) (group_product_ids group ++ l)%list.
Proof.
  revert group. induction l as [|s l IH]; intros group; simpl.
  - rewrite app_nil_r. destruct group. done.
  - rewrite IH. simpl. rewrite <- app_assoc. done.
Qed.

(** X13: a product group with a description or at least one product id
    (so that its Group element has child elements), none of them empty,
    is parsed back from the Group element it is serialized to unchanged:
    id, description and product ids in order. *)
Theorem cvrf_group_round_trip (group : cvrf_group) :
  group_description group <> None \/ group_product_ids group <> [] ->
  group_description group <> Some "" ->
  Forall (fun s => s <> "") (group_product_ids group) ->
  cvrf_group_parse (cvrf_group_to_dom group) = group.
Proof.
  intros _ _ _. destruct group as [gid desc ids].
  unfold cvrf_group_parse, cvrf_group_to_dom.
  rewrite cvrf_element_add_stringlist_children.
  destruct gid as [gid|], desc as [desc|]; simpl;
    rewrite fold_group_parse_product_ids; done.
Qed.

(** X13 on a described group of two products. *)
Lemma cvrf_group_round_trip_witness :
  (group_description (mk_group (Some "g1") (Some "Servers") ["p1"; "p2"]) <> None \/
   group_product_ids (mk_group (Some "g1") (Some "Servers") ["p1"; "p2"]) <> []) /\
  group_description (mk_group (Some "g1") (Some "Servers") ["p1"; "p2"]) <> Some "" /\
  Forall (fun s => s <> "") (group_product_ids (mk_group (Some "g1") (Some "Servers") ["p1"; "p2"])) /\
  cvrf_group_parse (cvrf_group_to_dom (mk_group (Some "g1") (Some "Servers") ["p1"; "p2"])) =
    mk_group (Some "g1") (Some "Servers") ["p1"; "p2"].
Proof.
  assert (H1 : group_description (mk_group (Some "g1") (Some "Servers") ["p1"; "p2"]) <> None \/
               group_product_ids (mk_group (Some "g1") (Some "Servers") ["p1"; "p2"]) <> [])
    by (left; discriminate).
  assert (H2 : group_description (mk_group (Some "g1") (Some "Servers") ["p1"; "p2"]) <> Some "")
    by discriminate.
  assert (H3 : Forall (fun s => s <> "")
                 (group_product_ids (mk_group (Some "g1") (Some "Servers") ["p1"; "p2"])))
    by (repeat constructor; discriminate).
  split; [exact H1|]. split; [exact H2|]. split; [exact H3|].
  exact (cvrf_group_round_trip (mk_group (Some "g1") (Some "Servers") ["p1"; "p2"]) H1 H2 H3).
Defined.

Lemma fold_threat_parse_product_ids (l : list string) (threat : cvrf_threat) :
  fold_left threat_parse_child (map (fun s => XElem "ProductID" [] (Some s) []) l) threat =
  mk_threat (threat_type threat) (threat_date threat) (threat_description threat)
    (threat_product_ids threat ++ l)%list (threat_group_ids threat).
Proof.
  revert threat. induction l as [|s l IH]; intros threat; simpl.
  - rewrite app_nil_r. destruct threat. done.
  - rewrite IH. simpl. rewrite <- app_assoc. done.
Qed.

Lemma fold_threat_parse_group_ids (l : list string) (threat : cvrf_threat) :
  fold_left threat_parse_child (map (fun s => XElem "GroupID" [] (Some s) []) l) threat =
  mk_threat (threat_type threat) (threat_date threat) (threat_description threat)
    (threat_product_ids threat) (threat_group_ids threat ++ l)%list.
Proof.
  revert threat. induction l as [|s l IH]; intros threat; simpl.
  - rewrite app_nil_r. destruct threat. done.
  - rewrite IH. simpl. rewrite <- app_assoc. done.
Qed.

(** X14: when the type tables read back the text written for the threat's
    type, and the threat has a description, a product id or a group id
    (so that its Threat element has child elements), none of them empty,
    parsing the Threat element it is serialized to gives back the same
    threat, its date included. *)
Theorem cvrf_threat_round_trip
    (type_get_text : cvrf_threat_type_t -> option string)
    (type_parse : option string -> cvrf_threat_type_t) (threat : cvrf_threat) :
  type_parse (type_get_text (threat_type threat)) = threat_type threat ->
  threat_description threat <> None \/ threat_product_ids threat <> [] \/
    threat_group_ids threat <> [] ->
  threat_description threat <> Some "" ->
  Forall (fun s => s <> "") (threat_product_ids threat ++ threat_group_ids threat)%list ->
  cvrf_threat_parse type_parse (cvrf_threat_to_dom type_get_text threat) = threat.
Proof.
  intros Ht _ _ _. destruct threat as [ty date desc pids gids]. simpl in Ht.
  unfold cvrf_threat_parse, cvrf_threat_to_dom, cvrf_element_add_attribute,
    cvrf_element_add_child.
  rewrite !cvrf_element_add_stringlist_children.
  cbn [threat_type threat_date threat_description threat_product_ids threat_group_ids].
  destruct (type_get_text ty) as [t|], date as [d|], desc as [ds|]; simpl;
    rewrite !fold_left_app, fold_threat_parse_product_ids, fold_threat_parse_group_ids;
    simpl; rewrite Ht; done.
Qed.

(** X14 on the dated threat of the examples. *)
Lemma cvrf_threat_round_trip_witness :
  example_threat_type_parse (example_threat_type_get_text (threat_type dated_threat)) =
    threat_type dated_threat /\
  (threat_description dated_threat <> None \/ threat_product_ids dated_threat <> [] \/
     threat_group_ids dated_threat <> []) /\
  threat_description dated_threat <> Some "" /\
  Forall (fun s => s <> "") (threat_product_ids dated_threat ++ threat_group_ids dated_threat)%list /\
  cvrf_threat_parse example_threat_type_parse
    (cvrf_threat_to_dom example_threat_type_get_text dated_threat) = dated_threat.
Proof.
  assert (H0 : example_threat_type_parse
                 (example_threat_type_get_text (threat_type dated_threat)) =
               threat_type dated_threat) by (vm_compute; reflexivity).
  assert (H1 : threat_description dated_threat <> None \/
               threat_product_ids dated_threat <> [] \/ threat_group_ids dated_threat <> [])
    by (left; discriminate).
  assert (H2 : threat_description dated_threat <> Some "") by discriminate.
  assert (H3 : Forall (fun s => s <> "")
                 (threat_product_ids dated_threat ++ threat_group_ids dated_threat)%list)
    by (simpl; repeat constructor; discriminate).
  split; [exact H0|]. split; [exact H1|]. split; [exact H2|]. split; [exact H3|].
  exact (cvrf_threat_round_trip example_threat_type_get_text example_threat_type_parse
           dated_threat H0 H1 H2 H3).
Defined.

Lemma fold_remediation_parse_product_ids (l : list string) (remed : cvrf_remediation) :
  fold_left remediation_parse_child (map (fun s => XElem "ProductID" [] (Some s) []) l) remed =
  mk_remediation (remed_type remed) (remed_date remed) (remed_description remed)
    (remed_url remed) (remed_entitlement remed) (remed_product_ids remed ++ l)%list
    (remed_group_ids remed).
Proof.
  revert remed. induction l as [|s l IH]; intros remed; simpl.
  - rewrite app_nil_r. destruct remed. done.
  - rewrite IH. simpl. rewrite <- app_assoc. done.
Qed.

Lemma fold_remediation_parse_group_ids (l : list string) (remed : cvrf_remediation) :
  fold_left remediation_parse_child (map (fun s => XElem "GroupID" [] (Some s) []) l) remed =
  mk_remediation (remed_type remed) (remed_date remed) (remed_description remed)
    (remed_url remed) (remed_entitlement remed) (remed_product_ids remed)
    (remed_group_ids remed ++ l)%list.
Proof.
  revert remed. induction l as [|s l IH]; intros remed; simpl.
  - rewrite app_nil_r. destruct remed. done.
  - rewrite IH. simpl. rewrite <- app_assoc. done.
Qed.

(** X15: when the type tables read back the text written for the
    remediation's type, and the remediation has a description, URL,
    entitlement, product id or group id (so that its Remediation element
    has child elements), none of them empty, parsing the Remediation
    element it is serialized to gives back its type, description, URL,
    entitlement, product ids and group ids; only the date is lost. *)
Theorem cvrf_remediation_round_trip_except_date
    (type_get_text : cvrf_remediation_type_t -> option string)
    (type_parse : option string -> cvrf_remediation_type_t) (remed : cvrf_remediation) :
  type_parse (type_get_text (remed_type remed)) = remed_type remed ->
  remed_description remed <> None \/ remed_url remed <> None \/
    remed_entitlement remed <> None \/ remed_product_ids remed <> [] \/
    remed_group_ids remed <> [] ->
  Forall (fun t => t <> Some "")
    [remed_description remed; remed_url remed; remed_entitlement remed] ->
  Forall (fun s => s <> "") (remed_product_ids remed ++ remed_group_ids remed)%list ->
  cvrf_remediation_parse type_parse (cvrf_remediation_to_dom type_get_text remed) =
  mk_remediation (remed_type remed) None (remed_description remed) (remed_url remed)
    (remed_entitlement remed) (remed_product_ids remed) (remed_group_ids remed).
Proof.
  intros Ht _ _ _. destruct remed as [ty date desc url ent pids gids]. simpl in Ht.
  unfold cvrf_remediation_parse, cvrf_remediation_to_dom, cvrf_element_add_attribute,
    cvrf_element_add_child.
  rewrite !cvrf_element_add_stringlist_children.
  cbn [remed_type remed_date remed_description remed_url remed_entitlement
       remed_product_ids remed_group_ids].
  destruct (type_get_text ty) as [t|], desc as [ds|], url as [u|], ent as [e|]; simpl;
    rewrite !fold_left_app, fold_remediation_parse_product_ids,
      fold_remediation_parse_group_ids; simpl; rewrite Ht; done.
Qed.

(** X15 on the dated remediation of the examples. *)
Lemma cvrf_remediation_round_trip_except_date_witness :
  example_remediation_type_parse
    (example_remediation_type_get_text (remed_type dated_remediation)) =
    remed_type dated_remediation /\
  (remed_description dated_remediation <> None \/ remed_url dated_remediation <> None \/
     remed_entitlement dated_remediation <> None \/ remed_product_ids dated_remediation <> [] \/
     remed_group_ids dated_remediation <> []) /\
  Forall (fun t => t <> Some "")
    [remed_description dated_remediation; remed_url dated_remediation;
     remed_entitlement dated_remediation] /\
  Forall (fun s => s <> "")
    (remed_product_ids dated_remediation ++ remed_group_ids dated_remediation)%list /\
  cvrf_remediation_parse example_remediation_type_parse
    (cvrf_remediation_to_dom example_remediation_type_get_text dated_remediation) =
  mk_remediation CVRF_REMEDIATION_VENDOR_FIX None (Some "Update openssl")
    (Some "https://access.redhat.com/errata/RHSA-2017:0001") None ["p1"] [].
Proof.
  assert (H0 : example_remediation_type_parse
                 (example_remediation_type_get_text (remed_type dated_remediation)) =
               remed_type dated_remediation) by (vm_compute; reflexivity).
  assert (H1 : remed_description dated_remediation <> None \/
               remed_url dated_remediation <> None \/
               remed_entitlement dated_remediation <> None \/
               remed_product_ids dated_remediation <> [] \/
               remed_group_ids dated_remediation <> [])
    by (left; discriminate).
  assert (H2 : Forall (fun t => t <> Some "")
                 [remed_description dated_remediation; remed_url dated_remediation;
                  remed_entitlement dated_remediation])
    by (simpl; repeat constructor; discriminate).
  assert (H3 : Forall (fun s => s <> "")
                 (remed_product_ids dated_remediation ++ remed_group_ids dated_remediation)%list)
    by (simpl; repeat constructor; discriminate).
  split; [exact H0|]. split; [exact H1|]. split; [exact H2|]. split; [exact H3|].
  exact (cvrf_remediation_round_trip_except_date example_remediation_type_get_text
           example_remediation_type_parse dated_remediation H0 H1 H2 H3).
Defined.
